(** * Freebox Home integration: endpoint directory, remote value accessor,
      snapshot caches and poller, embedded from the Python sources.

    The Python objects exchanged with the gateway are JSON values; they are
    modelled by [pyval].  Methods are embedded in a small monad [M] that
    threads the mutable object ([self]), records what is logged, dispatched
    and asked of the remote client, and carries Python exceptions. *)

From Stdlib Require Import ZArith String Ascii List Bool Lia.
From stdpp Require Import base option list countable strings gmap fin_maps.

Local Open Scope string_scope.
Local Open Scope Z_scope.
Local Open Scope list_scope.

(** ** Python values *)

Module Py.

(** JSON-shaped Python values: [None], [bool], [int], [str], [list] and
    [dict] with string keys (kept as an association list, first binding
    wins).  Floating-point numbers are left out. *)
#[warnings="-register-all"]
Inductive pyval : Type :=
| VNone
| VBool (b : bool)
| VInt (z : Z)
| VStr (s : string)
| VList (l : list pyval)
| VDict (d : list (string * pyval)).

(** The exception classes the sources can meet. *)
Inductive exn : Type :=
| KeyError
| TypeError
| AttributeError
| ValueError
| BinasciiError
| TimeoutError
| InsufficientPermissionsError
| HttpRequestError.

Inductive result (A : Type) : Type :=
| Ok (a : A)
| Raise (e : exn).
Arguments Ok {A} a.
Arguments Raise {A} e.

Definition rbind {A B} (r : result A) (f : A -> result B) : result B :=
  match r with
  | Ok a => f a
  | Raise e => Raise e
  end.

Definition exn_eqb (e1 e2 : exn) : bool :=
  match e1, e2 with
  | KeyError, KeyError | TypeError, TypeError
  | AttributeError, AttributeError | ValueError, ValueError
  | BinasciiError, BinasciiError | TimeoutError, TimeoutError
  | InsufficientPermissionsError, InsufficientPermissionsError
  | HttpRequestError, HttpRequestError => true
  | _, _ => false
  end.

(** [d[k]] on the association list of a dict. *)
Fixpoint dict_lookup (k : string) (d : list (string * pyval)) : option pyval :=
  match d with
  | [] => None
  | (k', v) :: d' => if String.eqb k' k then Some v else dict_lookup k d'
  end.

(** [v[k]] with a string key: only a dict can be subscripted by a string. *)
Definition getitem (v : pyval) (k : string) : result pyval :=
  match v with
  | VDict d =>
      match dict_lookup k d with
      | Some x => Ok x
      | None => Raise KeyError
      end
  | _ => Raise TypeError
  end.

(** [v.get(k, default)]: a method of dicts only. *)
Definition dict_get (v : pyval) (k : string) (default : pyval) : result pyval :=
  match v with
  | VDict d =>
      match dict_lookup k d with
      | Some x => Ok x
      | None => Ok default
      end
  | _ => Raise AttributeError
  end.

(** The elements produced by iterating a value ([for x in v], [filter]). *)
Definition py_iter (v : pyval) : result (list pyval) :=
  match v with
  | VList l => Ok l
  | VDict d => Ok (map (fun kv => VStr (fst kv)) d)
  | VStr s => Ok (map (fun c => VStr (String c EmptyString)) (list_ascii_of_string s))
  | _ => Raise TypeError
  end.

(** [v is None]. *)
Definition is_none (v : pyval) : bool :=
  match v with
  | VNone => true
  | _ => false
  end.

(** [v == s] for a [str] s: only an equal [str] compares equal. *)
Definition py_eq_str (v : pyval) (s : string) : bool :=
  match v with
  | VStr t => String.eqb t s
  | _ => false
  end.

(** [b == v] for a [bool] b: [bool] is a subclass of [int]. *)
Definition py_eq_bool (b : bool) (v : pyval) : bool :=
  match v with
  | VBool c => Bool.eqb b c
  | VInt z => Z.eqb (Z.b2z b) z
  | _ => false
  end.

(** Truth value of an object ([not v] is its negation). *)
Definition truthy (v : pyval) : bool :=
  match v with
  | VNone => false
  | VBool b => b
  | VInt z => negb (Z.eqb z 0)
  | VStr s => negb (String.eqb s "")
  | VList l => negb (bool_decide (l = []))
  | VDict d => negb (bool_decide (d = []))
  end.

(** The integer behind a number ([bool] counts as 0 or 1); anything else
    makes arithmetic and ordering against an [int] raise [TypeError]. *)
Definition as_int (v : pyval) : result Z :=
  match v with
  | VInt z => Ok z
  | VBool b => Ok (Z.b2z b)
  | _ => Raise TypeError
  end.

(** [n - v], [v > n] and [v < n] for an [int] n. *)
Definition py_rsub (n : Z) (v : pyval) : result pyval :=
  rbind (as_int v) (fun z => Ok (VInt (n - z))).
Definition py_gt (v : pyval) (n : Z) : result bool :=
  rbind (as_int v) (fun z => Ok (Z.ltb n z)).
Definition py_lt (v : pyval) (n : Z) : result bool :=
  rbind (as_int v) (fun z => Ok (Z.ltb z n)).

(** Keys of the snapshot dicts: the hashable scalars.  [True] and [1] are
    the same key, lists and dicts are unhashable. *)
Inductive pykey : Type :=
| KNone
| KInt (z : Z)
| KStr (s : string).

Definition hash_key (v : pyval) : result pykey :=
  match v with
  | VNone => Ok KNone
  | VBool b => Ok (KInt (Z.b2z b))
  | VInt z => Ok (KInt z)
  | VStr s => Ok (KStr s)
  | VList _ | VDict _ => Raise TypeError
  end.

#[global] Instance pykey_eq_dec : EqDecision pykey.
Proof. solve_decision. Defined.

#[global] Instance pykey_countable : Countable pykey.
Proof.
  refine (inj_countable'
    (fun k => match k with
              | KNone => inl ()
              | KInt z => inr (inl z)
              | KStr s => inr (inr s)
              end)
    (fun x => match x with
              | inl _ => KNone
              | inr (inl z) => KInt z
              | inr (inr s) => KStr s
              end) _).
  intros []; reflexivity.
Defined.

End Py.
Export Py.

Notation "'let?' x ':=' r 'in' k" := (rbind r (fun x => k))
  (at level 10, x pattern, r at level 100, k at level 200).

(** ** Observable effects and the method monad *)

(** Dispatcher topics of router.py. *)
Inductive signal : Type :=
| signal_device_new
| signal_home_device_new
| signal_home_device_update
| signal_device_update
| signal_sensor_update.

(** Requests sent to the remote client. *)
Inductive api_call : Type :=
| call_lan_get_hosts_list
| call_home_get_home_nodes
| call_home_get_home_endpoint_value (node_id command_id : pyval)
| call_home_set_home_endpoint_value (node_id command_id value : pyval).

Inductive level : Type := DEBUG | WARNING | ERROR.

(** The log messages of the embedded methods, with their arguments. *)
Inductive log_msg : Type :=
| UnableToSet
| UnableToGet
| ApiTimeoutRetrieval
| NoValueFor (ep_type name : string)
| NoNodeFor (ep_type name : string)
| HomeAccessNotGranted
| NodeNotSupported (home_node : pyval)
| InvalidState (state : pyval)
| PirApiTimeout
| Details (position_set : pyval) (val_1 val_2 : string) (state : pyval).

Inductive event : Type :=
| Log (lv : level) (m : log_msg)
| Dispatch (s : signal)
| Call (c : api_call)
| WriteHaState.

(** The remote client, as the answers it gives during one tick. *)
Record Freepybox : Type := {
  lan_get_hosts_list : result pyval;
  home_get_home_nodes : result pyval;
  home_get_home_endpoint_value : pyval -> pyval -> result pyval;
  home_set_home_endpoint_value : pyval -> pyval -> pyval -> result pyval;
}.

(** A method on an object of type [S]: the object after the call, what was
    emitted, and the value returned or the exception raised.  Mutations made
    before an exception stay. *)
Definition M (S A : Type) : Type := S -> S * list event * result A.

Definition ret {S A} (a : A) : M S A := fun s => (s, [], Ok a).

Definition bind {S A B} (m : M S A) (f : A -> M S B) : M S B := fun s =>
  match m s with
  | (s1, ev1, Ok a) =>
      match f a s1 with
      | (s2, ev2, r) => (s2, ev1 ++ ev2, r)
      end
  | (s1, ev1, Raise e) => (s1, ev1, Raise e)
  end.

Notation "'let*' x ':=' m 'in' k" := (bind m (fun x => k))
  (at level 10, x pattern, m at level 100, k at level 200).

Definition lift {S A} (r : result A) : M S A := fun s => (s, [], r).
Definition emit {S} (e : event) : M S unit := fun s => (s, [e], Ok tt).
Definition get_self {S} : M S S := fun s => (s, [], Ok s).
Definition modify {S} (f : S -> S) : M S unit := fun s => (f s, [], Ok tt).

(** [try: m except e: h]. *)
Definition try_except {S A} (m : M S A) (e : exn) (h : M S A) : M S A := fun s =>
  match m s with
  | (s1, ev1, Raise e') =>
      if exn_eqb e' e then
        match h s1 with
        | (s2, ev2, r) => (s2, ev1 ++ ev2, r)
        end
      else (s1, ev1, Raise e')
  | x => x
  end.

(** Run a method of a component object held in a field of [S]. *)
Definition zoom {S T A} (proj : S -> T) (upd : T -> S -> S) (m : M T A) : M S A :=
  fun s => match m (proj s) with
           | (t, ev, r) => (upd t s, ev, r)
           end.

(** [await api.f(...)]: the request is recorded, the answer is the client's. *)
Definition await {S} (c : api_call) (answer : result pyval) : M S pyval :=
  let* _ := emit (Call c) in lift answer.

Definition log {S} (lv : level) (m : log_msg) : M S unit := emit (Log lv m).
Definition async_dispatcher_send {S} (sg : signal) : M S unit := emit (Dispatch sg).

Definition state_of {S A} (x : S * list event * result A) : S := fst (fst x).
Definition events_of {S A} (x : S * list event * result A) : list event := snd (fst x).
Definition outcome_of {S A} (x : S * list event * result A) : result A := snd x.

(** ** const.py *)

Definition VALUE_NOT_SET : pyval := VNone.

(** ** router.py *)

Module router.

(** The fields of [FreeboxRouter] read or written by the device-tracker and
    home-device updates. *)
Record FreeboxRouter : Type := {
  name : pyval;
  mac : pyval;
  _attrs : pyval;
  _use_home : bool;
  devices : gmap pykey pyval;
  home_devices : gmap pykey pyval;
  _warning_once : bool;
}.

(** [FreeboxRouter.__init__]. *)
Definition init (use_home : bool) : FreeboxRouter :=
  {| name := VNone; mac := VNone; _attrs := VDict []; _use_home := use_home;
     devices := ∅; home_devices := ∅; _warning_once := false |}.

Definition set_devices (f : gmap pykey pyval -> gmap pykey pyval)
    (self : FreeboxRouter) : FreeboxRouter :=
  {| name := name self; mac := mac self; _attrs := _attrs self;
     _use_home := _use_home self; devices := f (devices self);
     home_devices := home_devices self; _warning_once := _warning_once self |}.

Definition set_home_devices (f : gmap pykey pyval -> gmap pykey pyval)
    (self : FreeboxRouter) : FreeboxRouter :=
  {| name := name self; mac := mac self; _attrs := _attrs self;
     _use_home := _use_home self; devices := devices self;
     home_devices := f (home_devices self); _warning_once := _warning_once self |}.

Definition set_warning_once (b : bool) (self : FreeboxRouter) : FreeboxRouter :=
  {| name := name self; mac := mac self; _attrs := _attrs self;
     _use_home := _use_home self; devices := devices self;
     home_devices := home_devices self; _warning_once := b |}.

(** [cache.get(k) is None]: the key is absent or bound to [None]. *)
Definition get_is_none (cache : gmap pykey pyval) (k : pykey) : bool :=
  match cache !! k with
  | None => true
  | Some v => is_none v
  end.

(** The record appended for the Freebox itself. *)
Definition self_record (self : FreeboxRouter) : pyval :=
  VDict [ ("primary_name", name self);
          ("l2ident", VDict [("id", mac self)]);
          ("vendor_name", VStr "Freebox SAS");
          ("host_type", VStr "router");
          ("active", VBool true);
          ("attrs", _attrs self) ].

(** [fbx_devices.append(x)]: a method of lists only. *)
Definition list_append (v x : pyval) : result pyval :=
  match v with
  | VList l => Ok (VList (l ++ [x]))
  | _ => Raise AttributeError
  end.

(** The body of [for fbx_device in fbx_devices], with [new_device] as the
    loop-carried variable. *)
Fixpoint device_trackers_loop (fbx_devices : list pyval) (new_device : bool)
    : M FreeboxRouter bool :=
  match fbx_devices with
  | [] => ret new_device
  | fbx_device :: rest =>
      let* l2ident := lift (getitem fbx_device "l2ident") in
      let* device_mac := lift (getitem l2ident "id") in
      let* k := lift (hash_key device_mac) in
      let* self := get_self in
      let new_device := if get_is_none (devices self) k then true else new_device in
      let* _ := modify (set_devices (insert k fbx_device)) in
      device_trackers_loop rest new_device
  end.

Definition update_device_trackers (api : Freepybox) : M FreeboxRouter unit :=
  let new_device := false in
  let* fbx_devices := await call_lan_get_hosts_list (lan_get_hosts_list api) in
  let* self := get_self in
  let* fbx_devices := lift (list_append fbx_devices (self_record self)) in
  let* items := lift (py_iter fbx_devices) in
  let* new_device := device_trackers_loop items new_device in
  let* _ := async_dispatcher_send signal_device_update in
  if new_device then async_dispatcher_send signal_device_new else ret tt.

Definition supported_categories : list string :=
  [ "pir"; "camera"; "alarm"; "dws"; "kfb"; "basic_shutter"; "opener"; "shutter" ].

(** [v in l] for a list of [str]. *)
Definition py_in (v : pyval) (l : list string) : bool := existsb (py_eq_str v) l.

(** The body of [for home_node in home_nodes]. *)
Fixpoint home_devices_loop (home_nodes : list pyval) (new_device : bool)
    : M FreeboxRouter bool :=
  match home_nodes with
  | [] => ret new_device
  | home_node :: rest =>
      let* category := lift (getitem home_node "category") in
      if negb (py_in category supported_categories) then
        let* self := get_self in
        let* _ := (if negb (_warning_once self)
                   then log WARNING (NodeNotSupported home_node)
                   else ret tt) in
        home_devices_loop rest new_device
      else
        let* node_id := lift (getitem home_node "id") in
        let* k := lift (hash_key node_id) in
        let* self := get_self in
        let new_device := if get_is_none (home_devices self) k then true else new_device in
        let* _ := modify (set_home_devices (insert k home_node)) in
        home_devices_loop rest new_device
  end.

Definition update_home_devices (api : Freepybox) : M FreeboxRouter unit :=
  let new_device := false in
  let* fetched :=
    try_except
      (let* home_nodes := await call_home_get_home_nodes (home_get_home_nodes api) in
       ret (Some home_nodes))
      InsufficientPermissionsError
      (let* _ := log WARNING HomeAccessNotGranted in ret None) in
  match fetched with
  | None => ret tt
  | Some home_nodes =>
      let* items := lift (py_iter home_nodes) in
      let* new_device := home_devices_loop items new_device in
      let* _ := modify (set_warning_once true) in
      let* _ := async_dispatcher_send signal_home_device_update in
      if new_device then async_dispatcher_send signal_home_device_new else ret tt
  end.

(** Successive scheduled runs of [update_home_devices] on one router, one
    client answer per tick.  The scheduler logs an exception escaping a run
    and fires the next tick all the same. *)
Fixpoint poll_home_devices (ticks : list Freepybox) (self : FreeboxRouter)
    : FreeboxRouter * list event :=
  match ticks with
  | [] => (self, [])
  | api :: rest =>
      match update_home_devices api self with
      | (self1, ev1, _) =>
          match poll_home_devices rest self1 with
          | (self2, ev2) => (self2, ev1 ++ ev2)
          end
      end
  end.

End router.
Export router.

(** ** base_class.py *)

Module base_class.

Record FreeboxHomeBaseClass : Type := {
  _router : FreeboxRouter;
  _node : pyval;
  _id : pyval;
}.

(** [next(filter(lambda x: x["name"] == name and x["ep_type"] == ep_type,
    nodes), None)]: the elements are tested in order until one passes; the
    [and] reads [x["ep_type"]] only when the name matched. *)
Fixpoint next_filter (ep_type name : string) (nodes : list pyval)
    : result (option pyval) :=
  match nodes with
  | [] => Ok None
  | x :: rest =>
      let? n := getitem x "name" in
      if py_eq_str n name then
        let? t := getitem x "ep_type" in
        if py_eq_str t ep_type then Ok (Some x) else next_filter ep_type name rest
      else next_filter ep_type name rest
  end.

Definition set_home_endpoint_value (api : Freepybox) (command_id value : pyval)
    : M FreeboxHomeBaseClass bool :=
  if is_none command_id then
    let* _ := log ERROR UnableToSet in
    ret false
  else
    let* self := get_self in
    let* _ := await (call_home_set_home_endpoint_value (_id self) command_id value)
                    (home_set_home_endpoint_value api (_id self) command_id value) in
    ret true.

Definition get_home_endpoint_value (api : Freepybox) (command_id : pyval)
    : M FreeboxHomeBaseClass pyval :=
  if is_none command_id then
    let* _ := log ERROR UnableToGet in
    ret VALUE_NOT_SET
  else
    let* self := get_self in
    let* fetched :=
      try_except
        (let* node := await (call_home_get_home_endpoint_value (_id self) command_id)
                            (home_get_home_endpoint_value api (_id self) command_id) in
         ret (Some node))
        TimeoutError
        (let* _ := log WARNING ApiTimeoutRetrieval in ret None) in
    match fetched with
    | None => ret VALUE_NOT_SET
    | Some node => lift (dict_get node "value" VALUE_NOT_SET)
    end.

Definition get_command_id (nodes : pyval) (ep_type name : string)
    : M FreeboxHomeBaseClass pyval :=
  let* items := lift (py_iter nodes) in
  let* node := lift (next_filter ep_type name items) in
  match node with
  | None =>
      let* _ := log WARNING (NoValueFor ep_type name) in
      ret VALUE_NOT_SET
  | Some node => lift (getitem node "id")
  end.

Definition get_value (ep_type name : string) : M FreeboxHomeBaseClass pyval :=
  let* self := get_self in
  let* show_endpoints := lift (getitem (_node self) "show_endpoints") in
  let* items := lift (py_iter show_endpoints) in
  let* node := lift (next_filter ep_type name items) in
  match node with
  | None =>
      let* _ := log WARNING (NoNodeFor ep_type name) in
      ret VALUE_NOT_SET
  | Some node => lift (dict_get node "value" VALUE_NOT_SET)
  end.

End base_class.
Export base_class.

(** ** binary_sensor.py *)

Module binary_sensor.

Record FreeboxPir : Type := {
  pir_base : FreeboxHomeBaseClass;
  _command_trigger : pyval;
  _detection : bool;
  _had_timeout : bool;
}.

Definition set_pir_base (b : FreeboxHomeBaseClass) (self : FreeboxPir) : FreeboxPir :=
  {| pir_base := b; _command_trigger := _command_trigger self;
     _detection := _detection self; _had_timeout := _had_timeout self |}.

Definition set_detection (d : bool) (self : FreeboxPir) : FreeboxPir :=
  {| pir_base := pir_base self; _command_trigger := _command_trigger self;
     _detection := d; _had_timeout := _had_timeout self |}.

Definition set_had_timeout (t : bool) (self : FreeboxPir) : FreeboxPir :=
  {| pir_base := pir_base self; _command_trigger := _command_trigger self;
     _detection := _detection self; _had_timeout := t |}.

(** The inherited methods run on the base-class part of the object. *)
Definition inherited {A} (m : M FreeboxHomeBaseClass A) : M FreeboxPir A :=
  zoom pir_base set_pir_base m.

Definition async_watcher (api : Freepybox) : M FreeboxPir unit :=
  try_except
    (let* self := get_self in
     let* detection := inherited (get_home_endpoint_value api (_command_trigger self)) in
     let* _ := modify (set_had_timeout false) in
     let* self := get_self in
     if py_eq_bool (_detection self) detection then
       let* _ := modify (set_detection (negb (truthy detection))) in
       emit WriteHaState
     else ret tt)
    TimeoutError
    (let* self := get_self in
     if _had_timeout self then
       let* _ := log WARNING PirApiTimeout in
       modify (set_had_timeout false)
     else modify (set_had_timeout true)).

(** Successive ticks of the watcher timer on one sensor. *)
Fixpoint watch (ticks : list Freepybox) (self : FreeboxPir) : FreeboxPir * list event :=
  match ticks with
  | [] => (self, [])
  | api :: rest =>
      match async_watcher api self with
      | (self1, ev1, _) =>
          match watch rest self1 with
          | (self2, ev2) => (self2, ev1 ++ ev2)
          end
      end
  end.

End binary_sensor.
Export binary_sensor.

(** ** The standard-library calls of cover.py *)

Module base64.

(** Bytes are integers in [0, 256). *)
Definition code (c : ascii) : Z := Z.of_N (N_of_ascii c).

(** [binascii]'s decoding table: the 6-bit value of an alphabet character,
    and a value of 64 or more for any other byte. *)
Definition table_a2b_base64 (c : Z) : Z :=
  if (65 <=? c) && (c <=? 90) then c - 65
  else if (97 <=? c) && (c <=? 122) then c - 71
  else if (48 <=? c) && (c <=? 57) then c + 4
  else if c =? 43 then 62
  else if c =? 47 then 63
  else 255.

Definition BASE64_PAD : Z := 61.

(** [binascii.a2b_base64] outside strict mode: bytes outside the alphabet
    are skipped, a completed pad sequence ends the input, and data that
    stops inside a quad is an error. *)
Fixpoint a2b_base64 (ascii_data : list Z) (quad_pos leftchar pads : Z)
    (bin_data : list Z) : result (list Z) :=
  match ascii_data with
  | [] => if quad_pos =? 0 then Ok bin_data else Raise BinasciiError
  | this_ch :: rest =>
      if this_ch =? BASE64_PAD then
        if (2 <=? quad_pos) && (4 <=? quad_pos + (pads + 1)) then Ok bin_data
        else a2b_base64 rest quad_pos leftchar
               (if 2 <=? quad_pos then pads + 1 else pads) bin_data
      else
        let this_ch := table_a2b_base64 this_ch in
        if 64 <=? this_ch then a2b_base64 rest quad_pos leftchar pads bin_data
        else if quad_pos =? 0 then
          a2b_base64 rest 1 this_ch 0 bin_data
        else if quad_pos =? 1 then
          a2b_base64 rest 2 (Z.land this_ch 15) 0
            (bin_data ++ [Z.land (Z.lor (Z.shiftl leftchar 2) (Z.shiftr this_ch 4)) 255])
        else if quad_pos =? 2 then
          a2b_base64 rest 3 (Z.land this_ch 3) 0
            (bin_data ++ [Z.land (Z.lor (Z.shiftl leftchar 4) (Z.shiftr this_ch 2)) 255])
        else
          a2b_base64 rest 0 0 0
            (bin_data ++ [Z.land (Z.lor (Z.shiftl leftchar 6) this_ch) 255])
  end.

(** [base64.b64decode(s)]: a [str] must be ASCII ([ValueError] otherwise);
    a value that is neither [str] nor bytes-like is a [TypeError]. *)
Definition b64decode (s : pyval) : result (list Z) :=
  match s with
  | VStr s =>
      let data := map code (list_ascii_of_string s) in
      if forallb (fun c => c <? 128) data
      then a2b_base64 data 0 0 0 []
      else Raise ValueError
  | _ => Raise TypeError
  end.

Definition hex_digit (n : Z) : ascii :=
  match String.get (Z.to_nat n) "0123456789abcdef" with
  | Some c => c
  | None => "0"%char
  end.

(** [bytes.hex()]. *)
Fixpoint hex (bs : list Z) : string :=
  match bs with
  | [] => ""
  | b :: rest => String (hex_digit (b / 16)) (String (hex_digit (b mod 16)) (hex rest))
  end.

End base64.

(** ** cover.py *)

Module cover.

Record FreeboxShutter : Type := {
  shutter_base : FreeboxHomeBaseClass;
  _invert_position : bool;
  _current_position : pyval;
}.

Definition set_shutter_base (b : FreeboxHomeBaseClass) (self : FreeboxShutter)
    : FreeboxShutter :=
  {| shutter_base := b; _invert_position := _invert_position self;
     _current_position := _current_position self |}.

Definition set_current_position (p : pyval) (self : FreeboxShutter) : FreeboxShutter :=
  {| shutter_base := shutter_base self; _invert_position := _invert_position self;
     _current_position := p |}.

Definition inherited {A} (m : M FreeboxHomeBaseClass A) : M FreeboxShutter A :=
  zoom shutter_base set_shutter_base m.

(** [(100 - position_set) if self._invert_position else position_set]. *)
Definition basic_position (invert : bool) (position_set : pyval) : result pyval :=
  if invert then py_rsub 100 position_set else Ok position_set.

Definition update_current_position : M FreeboxShutter unit :=
  let* state := inherited (get_value "signal" "state") in
  let* position_set := inherited (get_value "signal" "position_set") in
  let* raw := lift (base64.b64decode state) in
  let hex_value := base64.hex raw in
  let* self := get_self in
  if negb (Nat.eqb (String.length hex_value) 118) then
    let* _ := log WARNING (InvalidState state) in
    let* p := lift (basic_position (_invert_position self) position_set) in
    modify (set_current_position p)
  else
    let val_1 := String.substring 96 2 hex_value in
    let val_2 := String.substring 100 2 hex_value in
    let* _ :=
      (if String.eqb val_2 "00" then modify (set_current_position (VInt 100))
       else if String.eqb val_2 "c8" then modify (set_current_position (VInt 0))
       else
         let* above := lift (py_gt position_set 0) in
         let* inside := (if above then lift (py_lt position_set 100) else ret false) in
         if inside then
           let* p := lift (basic_position (_invert_position self) position_set) in
           modify (set_current_position p)
         else modify (set_current_position (VInt 50))) in
    log DEBUG (Details position_set val_1 val_2 state).

End cover.
Export cover.

(** ** Vocabulary of the statements *)

(** An endpoint descriptor of the data model: a dict that carries a name, a
    kind and an identifier that is not [None]. *)
Definition is_endpoint (x : pyval) : bool :=
  match getitem x "name", getitem x "ep_type", getitem x "id" with
  | Ok _, Ok _, Ok i => negb (is_none i)
  | _, _, _ => false
  end.

(** The element carries exactly this name and this kind. *)
Definition matches (ep_type name : string) (x : pyval) : bool :=
  match getitem x "name", getitem x "ep_type" with
  | Ok n, Ok t => py_eq_str n name && py_eq_str t ep_type
  | _, _ => false
  end.

(** What a run dispatched, and what it asked of the client, in order. *)
Definition dispatched (evs : list event) : list signal :=
  omap (fun e => match e with Dispatch s => Some s | _ => None end) evs.

Definition calls (evs : list event) : list api_call :=
  omap (fun e => match e with Call c => Some c | _ => None end) evs.

Definition is_ok {A} (r : result A) : bool :=
  match r with
  | Ok _ => true
  | Raise _ => false
  end.

(** The cache key of a host entry: [fbx_device["l2ident"]["id"]], hashed. *)
Definition device_key (fbx_device : pyval) : result pykey :=
  let? l2ident := getitem fbx_device "l2ident" in
  let? device_mac := getitem l2ident "id" in
  hash_key device_mac.

(** The cache key of a home node: [home_node["id"]], hashed. *)
Definition node_key (home_node : pyval) : result pykey :=
  let? node_id := getitem home_node "id" in
  hash_key node_id.

(** [home_node["category"]] is one of the supported categories. *)
Definition supported (home_node : pyval) : bool :=
  match getitem home_node "category" with
  | Ok c => py_in c supported_categories
  | Raise _ => false
  end.

(** A home node of the data model: it carries a category, and an
    identifier usable as a key when the category is supported. *)
Definition is_home_node (home_node : pyval) : bool :=
  is_ok (getitem home_node "category") &&
  (negb (supported home_node) || is_ok (node_key home_node)).

(** A cache that binds no key to [None]. *)
Definition holds_records (cache : gmap pykey pyval) : Prop :=
  map_Forall (fun _ v => v <> VNone) cache.

(** [self.devices[k] = fbx_device] for the key of the entry. *)
Definition upsert_device (cache : gmap pykey pyval) (fbx_device : pyval)
    : gmap pykey pyval :=
  match device_key fbx_device with
  | Ok k => <[k := fbx_device]> cache
  | Raise _ => cache
  end.

(** The key of the host entry is unbound in the cache. *)
Definition is_new_device (cache : gmap pykey pyval) (fbx_device : pyval) : Prop :=
  exists k, device_key fbx_device = Ok k /\ cache !! k = None.

(** The value of [new_device] after the loop of [update_device_trackers],
    started on this cache: raised when an upsert meets a key that [get]
    maps to [None]. *)
Fixpoint new_flag (cache : gmap pykey pyval) (items : list pyval) (new_device : bool) : bool :=
  match items with
  | [] => new_device
  | d :: rest =>
      new_flag (upsert_device cache d) rest
        (match device_key d with
         | Ok k => if get_is_none cache k then true else new_device
         | Raise _ => new_device
         end)
  end.

(** Every record of the cache has a supported category. *)
Definition all_supported (cache : gmap pykey pyval) : Prop :=
  map_Forall (fun _ v => supported v = true) cache.

(** The nodes reported by the unsupported-category warning, in order. *)
Definition node_warnings (evs : list event) : list pyval :=
  omap (fun e => match e with
                 | Log WARNING (NodeNotSupported n) => Some n
                 | _ => None
                 end) evs.

(** The client refuses the home node list. *)
Definition denied (api : Freepybox) : Prop :=
  home_get_home_nodes api = Raise InsufficientPermissionsError.

(** ** Sample objects, for the instances stated below *)

Module sample.

Definition endpoint (i : Z) (ep_type name : string) (fields : list (string * pyval))
    : pyval :=
  VDict ([("id", VInt i); ("ep_type", VStr ep_type); ("name", VStr name)] ++ fields).

Definition host (device_mac : string) : pyval :=
  VDict [("l2ident", VDict [("id", VStr device_mac)]); ("host_type", VStr "workstation")].

Definition home_node (i : Z) (category : string) (show_endpoints : list pyval) : pyval :=
  VDict [("id", VInt i); ("category", VStr category);
         ("show_endpoints", VList show_endpoints)].

(** A router after [setup], before its first poll. *)
Definition box : FreeboxRouter :=
  {| name := VStr "Freebox Server"; mac := VStr "68:A3:78:00:00:01";
     _attrs := VDict []; _use_home := true;
     devices := ∅; home_devices := ∅; _warning_once := false |}.

(** A client whose every request fails: time-outs on the endpoint calls,
    missing permission on the node list. *)
Definition down : Freepybox :=
  {| lan_get_hosts_list := Raise HttpRequestError;
     home_get_home_nodes := Raise InsufficientPermissionsError;
     home_get_home_endpoint_value := fun _ _ => Raise TimeoutError;
     home_set_home_endpoint_value := fun _ _ _ => Raise TimeoutError |}.

(** A client that answers: one host, the given home nodes, the given
    endpoint reading. *)
Definition up (home_nodes : list pyval) (reading : pyval) : Freepybox :=
  {| lan_get_hosts_list := Ok (VList [host "A"]);
     home_get_home_nodes := Ok (VList home_nodes);
     home_get_home_endpoint_value := fun _ _ => Ok reading;
     home_set_home_endpoint_value := fun _ _ _ => Ok VNone |}.

Definition slots : list pyval :=
  [ endpoint 1 "slot" "up" []; endpoint 2 "slot" "stop" [];
    endpoint 3 "signal" "stop" [("value", VBool false)];
    endpoint 4 "signal" "battery" [] ].

(** An entity on a node that shows [slots]. *)
Definition entity : FreeboxHomeBaseClass :=
  {| _router := box; _node := home_node 9 "basic_shutter" slots; _id := VInt 9 |}.

End sample.

Module sample_pir.

(** A motion sensor whose trigger endpoint resolved to command 5 and whose
    last retrieval succeeded. *)
Definition pir : FreeboxPir :=
  {| pir_base := sample.entity; _command_trigger := VInt 5;
     _detection := false; _had_timeout := false |}.

End sample_pir.

Module sample_cover.

(** A shutter whose node shows a state signal and a position_set signal
    with the given fields. *)
Definition shutter (state position_set : list (string * pyval)) (invert : bool)
    : FreeboxShutter :=
  {| shutter_base :=
       {| _router := sample.box;
          _node := sample.home_node 12 "shutter"
                     [ sample.endpoint 20 "signal" "state" state;
                       sample.endpoint 21 "signal" "position_set" position_set;
                       sample.endpoint 22 "slot" "position_set" [] ];
          _id := VInt 12 |};
     _invert_position := invert;
     _current_position := VNone |}.

(** The base64 text of 59 bytes, all zero but byte 50, which is 0xc8. *)
Definition closed_blob : string :=
  "AAAAAAAAAAAAAAAAAAAAAAAAAAAAAAAAAAAAAAAAAAAAAAAAAAAAAAAAAAAAAAAAAADIAAAAAAAAAAA=".

End sample_cover.


(** ** Vocabulary of the further properties *)

(** [cache[key(x)] = x] when the entry has a key; the cache as it was
    otherwise. *)
Definition upsert_by (key : pyval -> result pykey) (cache : gmap pykey pyval)
    (x : pyval) : gmap pykey pyval :=
  match key x with
  | Ok k => <[k := x]> cache
  | Raise _ => cache
  end.

(** The cache key under which [update_home_devices] stores a node: its
    hashed id when its category is supported, none otherwise. *)
Definition stored_key (home_node : pyval) : result pykey :=
  if supported home_node then node_key home_node else Raise KeyError.

(** The key of the entry is unbound in the cache. *)
Definition unbound_in (key : pyval -> result pykey) (cache : gmap pykey pyval)
    (x : pyval) : Prop :=
  exists k, key x = Ok k /\ cache !! k = None.


(** ** base_class.py: writing a value *)

Module base_class_write.

(** [d[k] = v] on the association list of a dict: an existing binding is
    overwritten in place, a new key goes to the end. *)
Fixpoint dict_set (k : string) (v : pyval) (d : list (string * pyval))
    : list (string * pyval) :=
  match d with
  | [] => [(k, v)]
  | (k', v') :: d' =>
      if String.eqb k' k then (k', v) :: d' else (k', v') :: dict_set k v d'
  end.

(** [x[k] = v] with a string key: only a dict takes it. *)
Definition setitem (x : pyval) (k : string) (v : pyval) : result pyval :=
  match x with
  | VDict d => Ok (VDict (dict_set k v d))
  | _ => Raise TypeError
  end.

(** The position of the element that [next(filter(...), None)] returns. *)
Fixpoint next_filter_index (ep_type name : string) (nodes : list pyval)
    : result (option nat) :=
  match nodes with
  | [] => Ok None
  | x :: rest =>
      let? n := getitem x "name" in
      if py_eq_str n name then
        let? t := getitem x "ep_type" in
        if py_eq_str t ep_type then Ok (Some 0%nat)
        else let? r := next_filter_index ep_type name rest in Ok (S <$> r)
      else let? r := next_filter_index ep_type name rest in Ok (S <$> r)
  end.

(** [node["value"] = value] for the endpoint at position [i] of
    [self_node["show_endpoints"]]: the endpoint is a dict inside the list
    inside the node, and is changed where it stands. *)
Definition store_endpoint_value (i : nat) (value : pyval) (self_node : pyval) : pyval :=
  match self_node, getitem self_node "show_endpoints" with
  | VDict d, Ok (VList l) =>
      match l !! i with
      | Some x =>
          match setitem x "value" value with
          | Ok x' => VDict (dict_set "show_endpoints" (VList (<[i := x']> l)) d)
          | Raise _ => self_node
          end
      | None => self_node
      end
  | _, _ => self_node
  end.

Definition set_node (n : pyval) (self : FreeboxHomeBaseClass) : FreeboxHomeBaseClass :=
  {| _router := _router self; _node := n; _id := _id self |}.

(** [async_set_value], for a subclass [S] that holds the base-class part
    and brings its own [async_update_node]. *)
Definition async_set_value {S} (base : S -> FreeboxHomeBaseClass)
    (set_base : FreeboxHomeBaseClass -> S -> S) (async_update_node : M S unit)
    (ep_type name : string) (value : pyval) : M S unit :=
  let* self := get_self in
  let* show_endpoints := lift (getitem (_node (base self)) "show_endpoints") in
  let* items := lift (py_iter show_endpoints) in
  let* node := lift (next_filter_index ep_type name items) in
  match node with
  | None => log WARNING (NoNodeFor ep_type name)
  | Some i =>
      let* _ := modify (fun s =>
                  set_base (set_node (store_endpoint_value i value (_node (base s)))
                                     (base s)) s) in
      let* _ := async_update_node in
      emit WriteHaState
  end.

End base_class_write.

(** ** cover.py: the basic shutter *)

Module basic_shutter.

Import base_class_write.

(** [homeassistant.const]. *)
Definition STATE_CLOSED : pyval := VStr "closed".
Definition STATE_OPEN : pyval := VStr "open".

Record FreeboxBasicShutter : Type := {
  basic_base : FreeboxHomeBaseClass;
  _command_up : pyval;
  _command_stop : pyval;
  _command_down : pyval;
  _command_state : pyval;
  _state : pyval;
}.

Definition set_basic_base (b : FreeboxHomeBaseClass) (self : FreeboxBasicShutter)
    : FreeboxBasicShutter :=
  {| basic_base := b; _command_up := _command_up self;
     _command_stop := _command_stop self; _command_down := _command_down self;
     _command_state := _command_state self; _state := _state self |}.

Definition set_state (s : pyval) (self : FreeboxBasicShutter) : FreeboxBasicShutter :=
  {| basic_base := basic_base self; _command_up := _command_up self;
     _command_stop := _command_stop self; _command_down := _command_down self;
     _command_state := _command_state self; _state := s |}.

Definition inherited {A} (m : M FreeboxHomeBaseClass A) : M FreeboxBasicShutter A :=
  zoom basic_base set_basic_base m.

Definition convert_state (state : pyval) : pyval :=
  if truthy state then STATE_CLOSED
  else if negb (is_none state) then STATE_OPEN
  else VNone.

(** The [is_closed] property: [False], [True] or [None]. *)
Definition is_closed (self : FreeboxBasicShutter) : pyval :=
  if py_eq_str (_state self) "open" then VBool false
  else if py_eq_str (_state self) "closed" then VBool true
  else VNone.

Definition async_update_node : M FreeboxBasicShutter unit :=
  let* state := inherited (get_value "signal" "state") in
  modify (set_state (convert_state state)).

Definition async_open_cover (api : Freepybox) : M FreeboxBasicShutter unit :=
  let* self := get_self in
  let* _ := inherited (set_home_endpoint_value api (_command_up self)
                         (VDict [("value", VNone)])) in
  async_set_value basic_base set_basic_base async_update_node
    "signal" "state" (VBool false).

Definition async_close_cover (api : Freepybox) : M FreeboxBasicShutter unit :=
  let* self := get_self in
  let* _ := inherited (set_home_endpoint_value api (_command_down self)
                         (VDict [("value", VNone)])) in
  async_set_value basic_base set_basic_base async_update_node
    "signal" "state" (VBool true).

Definition async_stop_cover (api : Freepybox) : M FreeboxBasicShutter unit :=
  let* self := get_self in
  let* _ := inherited (set_home_endpoint_value api (_command_stop self)
                         (VDict [("value", VNone)])) in
  async_set_value basic_base set_basic_base async_update_node
    "signal" "state" VNone.

End basic_shutter.

(** ** cover.py: the commands of the positional shutter *)

Module shutter_commands.

(** [FreeboxShutter] with the two command identifiers its commands use. *)
Record FreeboxShutterEntity : Type := {
  shutter : FreeboxShutter;
  _command_set_position : pyval;
  _command_stop : pyval;
}.

Definition set_shutter (s : FreeboxShutter) (self : FreeboxShutterEntity)
    : FreeboxShutterEntity :=
  {| shutter := s; _command_set_position := _command_set_position self;
     _command_stop := _command_stop self |}.

Definition on_shutter {A} (m : M FreeboxShutter A) : M FreeboxShutterEntity A :=
  zoom shutter set_shutter m.

Definition inherited {A} (m : M FreeboxHomeBaseClass A) : M FreeboxShutterEntity A :=
  on_shutter (cover.inherited m).

(** [homeassistant.components.cover]. *)
Definition ATTR_POSITION : string := "position".

(** [v == n] for an [int] n. *)
Definition py_eq_int (v : pyval) (n : Z) : bool :=
  match v with
  | VInt z => Z.eqb z n
  | VBool b => Z.eqb (Z.b2z b) n
  | _ => false
  end.

(** The [is_closed] property: [self.current_cover_position == 0]. *)
Definition is_closed (self : FreeboxShutterEntity) : bool :=
  py_eq_int (_current_position (shutter self)) 0.

Definition async_set_cover_position (api : Freepybox) (kwargs : pyval)
    : M FreeboxShutterEntity unit :=
  let* self := get_self in
  let* value :=
    (if _invert_position (shutter self)
     then let* p := lift (getitem kwargs ATTR_POSITION) in lift (py_rsub 100 p)
     else lift (getitem kwargs ATTR_POSITION)) in
  let* _ := inherited (set_home_endpoint_value api (_command_set_position self)
                         (VDict [("value", value)])) in
  let* p := lift (getitem kwargs ATTR_POSITION) in
  let* _ := modify (fun s => set_shutter (set_current_position p (shutter s)) s) in
  emit WriteHaState.

Definition async_open_cover (api : Freepybox) : M FreeboxShutterEntity unit :=
  let* self := get_self in
  let value := if _invert_position (shutter self) then VInt 0 else VInt 100 in
  let* _ := inherited (set_home_endpoint_value api (_command_set_position self)
                         (VDict [("value", value)])) in
  let* _ := modify (fun s => set_shutter (set_current_position (VInt 100) (shutter s)) s) in
  emit WriteHaState.

Definition async_close_cover (api : Freepybox) : M FreeboxShutterEntity unit :=
  let* self := get_self in
  let value := if _invert_position (shutter self) then VInt 100 else VInt 0 in
  let* _ := inherited (set_home_endpoint_value api (_command_set_position self)
                         (VDict [("value", value)])) in
  let* _ := modify (fun s => set_shutter (set_current_position (VInt 0) (shutter s)) s) in
  emit WriteHaState.

Definition async_stop_cover (api : Freepybox) : M FreeboxShutterEntity unit :=
  let* self := get_self in
  let* _ := inherited (set_home_endpoint_value api (_command_stop self)
                         (VDict [("value", VNone)])) in
  let* _ := on_shutter update_current_position in
  emit WriteHaState.

End shutter_commands.

(** ** router.py: the disks *)

Module disks.

(** The body of [for fbx_disk in fbx_disks], on [self.disks]. *)
Fixpoint disks_loop (fbx_disks : list pyval) : M (gmap pykey pyval) unit :=
  match fbx_disks with
  | [] => ret tt
  | fbx_disk :: rest =>
      let* disk_id := lift (getitem fbx_disk "id") in
      let* k := lift (hash_key disk_id) in
      let* _ := modify (insert k fbx_disk) in
      disks_loop rest
  end.

(** [_update_disks_sensors], as a method on [self.disks], the one field it
    touches; [answer] is what [storage.get_disks()] gave. *)
Definition _update_disks_sensors (answer : result pyval) : M (gmap pykey pyval) unit :=
  let* fetched := lift answer in
  let fbx_disks := if truthy fetched then fetched else VList [] in
  let* items := lift (py_iter fbx_disks) in
  disks_loop items.

(** The cache key of a disk: [fbx_disk["id"]], hashed. *)
Definition disk_key (fbx_disk : pyval) : result pykey :=
  let? disk_id := getitem fbx_disk "id" in
  hash_key disk_id.

End disks.

(** A basic shutter and a positional shutter, for the instances below. *)
Module sample_covers.

Definition basic : basic_shutter.FreeboxBasicShutter :=
  {| basic_shutter.basic_base :=
       {| _router := sample.box;
          _node := sample.home_node 7 "basic_shutter"
                     [ sample.endpoint 1 "slot" "up" [];
                       sample.endpoint 2 "slot" "stop" [];
                       sample.endpoint 3 "slot" "down" [];
                       sample.endpoint 4 "signal" "state" [("value", VNone)];
                       sample.endpoint 5 "signal" "battery" [("value", VInt 80)] ];
          _id := VInt 7 |};
     basic_shutter._command_up := VInt 1;
     basic_shutter._command_stop := VInt 2;
     basic_shutter._command_down := VInt 3;
     basic_shutter._command_state := VInt 4;
     basic_shutter._state := VNone |}.

Definition positional (invert : bool) : shutter_commands.FreeboxShutterEntity :=
  {| shutter_commands.shutter :=
       sample_cover.shutter [("value", VStr "AAAA")] [("value", VInt 30)] invert;
     shutter_commands._command_set_position := VInt 22;
     shutter_commands._command_stop := VInt 23 |}.

End sample_covers.


(** ** router.py: the dispatcher topics *)

Module topics.

(** const.py. *)
Definition DOMAIN : string := "freebox".

(** The five [signal_*] properties of a router configured for [host]:
    [f"{DOMAIN}-{self._host}-device-new"] and its siblings. *)
Definition signal_name (host : string) (s : signal) : string :=
  (DOMAIN ++ "-" ++ host ++
   match s with
   | signal_device_new => "-device-new"
   | signal_home_device_new => "-home-device-new"
   | signal_home_device_update => "-home-device-update"
   | signal_device_update => "-device-update"
   | signal_sensor_update => "-sensor-update"
   end)%string.

End topics.

(* ===================================================================== *)
(** * Properties *)

(** ** Endpoint directory *)

Section EndpointDirectory.

Variables (ep_type name : string).

Lemma next_filter_find (l : list pyval) :
  Forall (fun x => is_endpoint x = true) l ->
  next_filter ep_type name l = Ok (List.find (matches ep_type name) l).
Proof.
  induction 1 as [|x l Hx _ IH]; [reflexivity|].
  cbn [next_filter List.find]. unfold is_endpoint in Hx. unfold matches.
  destruct (getitem x "name") as [n|]; [|discriminate].
  destruct (getitem x "ep_type") as [t|]; [|discriminate].
  cbn [rbind]. destruct (py_eq_str n name); cbn [andb rbind]; [|exact IH].
  destruct (py_eq_str t ep_type); [reflexivity|exact IH].
Qed.

Lemma find_matches_id (l : list pyval) (x : pyval) :
  Forall (fun x => is_endpoint x = true) l ->
  List.find (matches ep_type name) l = Some x ->
  exists i, getitem x "id" = Ok i /\ i <> VNone.
Proof.
  intros Hl Hf. apply find_some in Hf as [Hin _].
  rewrite Forall_forall in Hl. apply list_elem_of_In, Hl in Hin.
  unfold is_endpoint in Hin.
  destruct (getitem x "name"); [|discriminate].
  destruct (getitem x "ep_type"); [|discriminate].
  destruct (getitem x "id") as [i|]; [|discriminate].
  exists i. split; [reflexivity|]. intros ->. discriminate.
Qed.

End EndpointDirectory.

(** C1. On a list of endpoint descriptors, [get_command_id] never raises;
    it returns [VALUE_NOT_SET] exactly when no element carries both the
    name and the kind, otherwise the identifier of the first such element;
    a second call gives the same answer. *)
Theorem get_command_id_resolve (self : FreeboxHomeBaseClass) (l : list pyval)
    (ep_type name : string) :
  Forall (fun x => is_endpoint x = true) l ->
  exists v evs,
    get_command_id (VList l) ep_type name self = (self, evs, Ok v) /\
    (v = VALUE_NOT_SET <-> forall x, In x l -> matches ep_type name x = false) /\
    (forall x, List.find (matches ep_type name) l = Some x -> getitem x "id" = Ok v) /\
    get_command_id (VList l) ep_type name
      (state_of (get_command_id (VList l) ep_type name self))
    = get_command_id (VList l) ep_type name self.
Proof.
  intros Hl. unfold get_command_id, bind, lift. cbn [py_iter].
  rewrite (next_filter_find ep_type name l Hl).
  destruct (List.find (matches ep_type name) l) as [x|] eqn:Hf.
  - destruct (find_matches_id ep_type name l x Hl Hf) as (i & Hi & Hne).
    exists i, []. rewrite Hi. cbn. repeat split.
    all: try congruence.
    + intros Hv. destruct (Hne Hv).
    + intros Hno. apply find_some in Hf as [Hin Hm]. rewrite (Hno x Hin) in Hm. discriminate.
  - exists VALUE_NOT_SET, [Log WARNING (NoValueFor ep_type name)]. cbn.
    repeat split; try congruence.
    intros _ x Hin. exact (find_none _ _ Hf x Hin).
Qed.

Lemma get_command_id_resolve_witness :
  Forall (fun x => is_endpoint x = true) sample.slots /\
  outcome_of (get_command_id (VList sample.slots) "signal" "stop" sample.entity)
  = Ok (VInt 3).
Proof.
  assert (H : Forall (fun x => is_endpoint x = true) sample.slots)
    by (repeat constructor).
  split; [exact H|].
  destruct (get_command_id_resolve sample.entity sample.slots "signal" "stop" H)
    as (v & evs & Hrun & _ & Hfirst & _).
  rewrite Hrun. symmetry. apply (Hfirst (sample.endpoint 3 "signal" "stop" [("value", VBool false)])).
  reflexivity.
Defined.

(** ** Device trackers *)

Lemma device_key_record (d : pyval) (k : pykey) : device_key d = Ok k -> d <> VNone.
Proof. intros H ->. discriminate. Qed.

Lemma device_trackers_loop_fold (items : list pyval) :
  Forall (fun d => is_ok (device_key d) = true) items ->
  forall (new_device : bool) (self : FreeboxRouter),
    device_trackers_loop items new_device self
    = (set_devices (fun m => foldl upsert_device m items) self, [],
       Ok (new_flag (devices self) items new_device)).
Proof.
  induction 1 as [|d items Hd _ IH]; intros nd self.
  - cbn. destruct self; reflexivity.
  - cbn [device_trackers_loop foldl new_flag]. unfold upsert_device at 2 3.
    unfold device_key in *. unfold bind at 1, lift at 1.
    destruct (getitem d "l2ident") as [l2|]; [|discriminate]. cbn [rbind] in *.
    unfold bind at 1, lift at 1.
    destruct (getitem l2 "id") as [m|]; [|discriminate]. cbn [rbind] in *.
    unfold bind at 1, lift at 1.
    destruct (hash_key m) as [k|]; [|discriminate].
    unfold bind at 1, get_self at 1. unfold bind at 1, modify at 1.
    rewrite IH. cbn. reflexivity.
Qed.

Section UpsertFold.

Implicit Types (m : gmap pykey pyval) (items : list pyval) (k : pykey).

Lemma upsert_device_key m d k :
  device_key d = Ok k -> upsert_device m d = <[k := d]> m.
Proof. unfold upsert_device. intros ->. reflexivity. Qed.

Lemma get_is_none_records m k :
  holds_records m -> get_is_none m k = true <-> m !! k = None.
Proof.
  intros Hm. unfold get_is_none. destruct (m !! k) as [v|] eqn:Hk; [|tauto].
  split; [|discriminate]. intros Hv. destruct v; try discriminate.
  destruct (Hm k VNone Hk eq_refl).
Qed.

Lemma holds_records_upsert m d :
  holds_records m -> holds_records (upsert_device m d).
Proof.
  intros Hm. unfold upsert_device. destruct (device_key d) as [k|] eqn:Hk; [|exact Hm].
  apply map_Forall_insert_2; [|exact Hm]. exact (device_key_record d k Hk).
Qed.

Lemma holds_records_fold items : forall m,
  holds_records m -> holds_records (foldl upsert_device m items).
Proof.
  induction items as [|d items IH]; intros m Hm; [exact Hm|].
  cbn. apply IH, holds_records_upsert, Hm.
Qed.

Lemma fold_upsert_other items k : forall m,
  (forall d, In d items -> device_key d <> Ok k) ->
  foldl upsert_device m items !! k = m !! k.
Proof.
  induction items as [|d items IH]; intros m Hk; [reflexivity|].
  cbn [foldl]. rewrite IH by (intros d' Hd'; apply Hk; right; exact Hd').
  unfold upsert_device. destruct (device_key d) as [k'|] eqn:Hd; [|reflexivity].
  apply lookup_insert_ne. intros ->. exact (Hk d (or_introl eq_refl) Hd).
Qed.

Lemma fold_upsert_last items d k m :
  device_key d = Ok k -> foldl upsert_device m (items ++ [d]) !! k = Some d.
Proof.
  intros Hd. rewrite foldl_app. cbn. rewrite (upsert_device_key _ d k Hd).
  apply lookup_insert_eq.
Qed.

Lemma fold_upsert_bound items : forall m d k,
  In d items -> device_key d = Ok k ->
  exists d', foldl upsert_device m items !! k = Some d' /\ In d' items /\ device_key d' = Ok k.
Proof.
  induction items as [|x items IH] using rev_ind; intros m d k Hin Hd; [destruct Hin|].
  destruct (device_key x) as [kx|] eqn:Hx.
  - destruct (decide (kx = k)) as [->|Hne].
    + exists x. rewrite (fold_upsert_last items x k m Hx).
      split; [reflexivity|]. split; [apply in_or_app; right; left; reflexivity|exact Hx].
    + apply in_app_or in Hin as [Hin|[->|[]]]; [|congruence].
      destruct (IH m d k Hin Hd) as (d' & Hl & Hin' & Hd').
      exists d'. rewrite foldl_app. cbn. rewrite (upsert_device_key _ x kx Hx).
      rewrite lookup_insert_ne by exact Hne.
      split; [exact Hl|]. split; [apply in_or_app; left; exact Hin'|exact Hd'].
  - apply in_app_or in Hin as [Hin|[->|[]]]; [|congruence].
    destruct (IH m d k Hin Hd) as (d' & Hl & Hin' & Hd').
    exists d'. rewrite foldl_app. cbn. unfold upsert_device at 1. rewrite Hx.
    split; [exact Hl|]. split; [apply in_or_app; left; exact Hin'|exact Hd'].
Qed.

Lemma fold_upsert_dom items : forall m,
  (forall d, In d items -> exists k, device_key d = Ok k /\ is_Some (m !! k)) ->
  dom (foldl upsert_device m items) = dom m.
Proof.
  induction items as [|d items IH]; intros m Hk; [reflexivity|].
  destruct (Hk d (or_introl eq_refl)) as (k & Hd & Hs).
  cbn [foldl]. rewrite (upsert_device_key _ d k Hd).
  rewrite IH.
  - rewrite dom_insert_L. apply elem_of_dom in Hs.
    apply subseteq_union_1_L, singleton_subseteq_l, Hs.
  - intros d' Hd'. destruct (Hk d' (or_intror Hd')) as (k' & Hd'k & Hs').
    exists k'. split; [exact Hd'k|]. rewrite lookup_insert. case_decide; [eauto|exact Hs'].
Qed.

Lemma new_flag_spec items : forall m nd,
  holds_records m ->
  Forall (fun d => is_ok (device_key d) = true) items ->
  new_flag m items nd = true <->
  nd = true \/ exists d, In d items /\ is_new_device m d.
Proof.
  induction items as [|d items IH]; intros m nd Hm Hwf.
  - cbn. split; [tauto|]. intros [H|(d & [] & _)]; exact H.
  - inversion Hwf as [|? ? Hd Hwf']; subst.
    destruct (device_key d) as [k|] eqn:Hk; [|discriminate].
    cbn [new_flag]. rewrite Hk, (upsert_device_key _ d k Hk).
    rewrite IH; [|rewrite <- (upsert_device_key m d k Hk); apply holds_records_upsert, Hm|exact Hwf'].
    pose proof (get_is_none_records m k Hm) as Hnone.
    split.
    + intros [Hnd|(d' & Hin & k' & Hk' & Hl)].
      * destruct (get_is_none m k) eqn:Hg.
        -- right. exists d. split; [left; reflexivity|]. exists k. split; [exact Hk|tauto].
        -- left. exact Hnd.
      * right. exists d'. split; [right; exact Hin|]. exists k'. split; [exact Hk'|].
        rewrite lookup_insert in Hl. case_decide; [discriminate|exact Hl].
    + intros [Hnd|(d' & [->|Hin] & k' & Hk' & Hl)].
      * left. rewrite Hnd. destruct (get_is_none m k); reflexivity.
      * left. assert (k' = k) as -> by congruence.
        apply Hnone in Hl. rewrite Hl. reflexivity.
      * destruct (decide (k = k')) as [->|Hne].
        -- left. apply Hnone in Hl. rewrite Hl. reflexivity.
        -- right. exists d'. split; [exact Hin|]. exists k'. split; [exact Hk'|].
           rewrite lookup_insert_ne by exact Hne. exact Hl.
Qed.

End UpsertFold.

Lemma self_record_key (self : FreeboxRouter) : 
  device_key (self_record self) = hash_key (mac self).
Proof. reflexivity. Qed.

(** A run on a fetched host list, as one fold over the entries. *)
Lemma update_device_trackers_run (self : FreeboxRouter) (fetched : list pyval)
    (kmac : pykey) :
  Forall (fun d => is_ok (device_key d) = true) fetched ->
  hash_key (mac self) = Ok kmac ->
  forall (api : Freepybox) (s : FreeboxRouter),
    lan_get_hosts_list api = Ok (VList fetched) ->
    self_record s = self_record self ->
    update_device_trackers api s
    = (set_devices (fun m => foldl upsert_device m (fetched ++ [self_record self])) s,
       Call call_lan_get_hosts_list
         :: Dispatch signal_device_update
         :: (if new_flag (devices s) (fetched ++ [self_record self]) false
             then [Dispatch signal_device_new] else []),
       Ok tt).
Proof.
  intros Hwf Hmac api s Hapi Hs.
  assert (Hwf' : Forall (fun d => is_ok (device_key d) = true)
                   (fetched ++ [self_record self])).
  { apply Forall_app. split; [exact Hwf|]. constructor; [|constructor].
    rewrite self_record_key, Hmac. reflexivity. }
  unfold update_device_trackers, await, bind at 1 2.
  unfold emit at 1, lift at 1. rewrite Hapi.
  unfold bind at 1, get_self at 1. unfold bind at 1, lift at 1. cbn [list_append].
  unfold bind at 1, lift at 1. cbn [py_iter]. rewrite Hs.
  unfold bind at 1. rewrite (device_trackers_loop_fold _ Hwf').
  unfold bind, async_dispatcher_send, emit, ret.
  destruct (new_flag (devices s) _ false); reflexivity.
Qed.

(** The cache keeps holding records across a run. *)
Lemma update_device_trackers_keeps_records (api : Freepybox) (self : FreeboxRouter)
    (fetched : list pyval) (kmac : pykey) :
  lan_get_hosts_list api = Ok (VList fetched) ->
  Forall (fun d => is_ok (device_key d) = true) fetched ->
  hash_key (mac self) = Ok kmac ->
  holds_records (devices self) ->
  holds_records (devices (state_of (update_device_trackers api self))).
Proof.
  intros Hapi Hwf Hmac Hrec.
  rewrite (update_device_trackers_run self fetched kmac Hwf Hmac api self Hapi eq_refl).
  cbn. apply holds_records_fold, Hrec.
Qed.

(** C2. One run on a fetched host list appends the record of the Freebox
    itself and upserts every entry under its id, leaving other keys alone;
    it dispatches "device update" once, followed by "device new" once
    exactly when some upserted id was unbound before the run; a second run
    on the same host list keeps the number of entries and dispatches
    "device update" only. *)
Theorem update_device_trackers_cycle (api : Freepybox) (self : FreeboxRouter)
    (fetched : list pyval) (kmac : pykey) :
  lan_get_hosts_list api = Ok (VList fetched) ->
  Forall (fun d => is_ok (device_key d) = true) fetched ->
  hash_key (mac self) = Ok kmac ->
  holds_records (devices self) ->
  let entries := fetched ++ [self_record self] in
  exists self1 evs1,
    update_device_trackers api self = (self1, evs1, Ok tt) /\
    devices self1 !! kmac = Some (self_record self) /\
    (forall d k, In d entries -> device_key d = Ok k ->
       exists d', devices self1 !! k = Some d' /\ In d' entries /\ device_key d' = Ok k) /\
    (forall k, (forall d, In d entries -> device_key d <> Ok k) ->
       devices self1 !! k = devices self !! k) /\
    ((exists d, In d entries /\ is_new_device (devices self) d) ->
       dispatched evs1 = [signal_device_update; signal_device_new]) /\
    (~ (exists d, In d entries /\ is_new_device (devices self) d) ->
       dispatched evs1 = [signal_device_update]) /\
    forall api2, lan_get_hosts_list api2 = Ok (VList fetched) ->
      exists self2 evs2,
        update_device_trackers api2 self1 = (self2, evs2, Ok tt) /\
        size (devices self2) = size (devices self1) /\
        dispatched evs2 = [signal_device_update].
Proof.
  intros Hapi Hwf Hmac Hrec entries.
  assert (Hwf' : Forall (fun d => is_ok (device_key d) = true) entries).
  { apply Forall_app. split; [exact Hwf|]. constructor; [|constructor].
    rewrite self_record_key, Hmac. reflexivity. }
  pose proof (new_flag_spec entries (devices self) false Hrec Hwf') as Hflag.
  pose proof (update_device_trackers_run self fetched kmac Hwf Hmac) as Hrun.
  fold entries in Hrun.
  eexists _, _. split; [apply (Hrun api self Hapi eq_refl)|].
  cbn [devices set_devices].
  split; [apply fold_upsert_last; rewrite self_record_key; exact Hmac|].
  split; [intros d k; apply fold_upsert_bound|].
  split; [intros k; apply fold_upsert_other|].
  split; [|split].
  - intros Hnew. replace (new_flag (devices self) entries false) with true; [reflexivity|].
    symmetry. apply Hflag. right. exact Hnew.
  - intros Hnew. destruct (new_flag (devices self) entries false); [|reflexivity].
    destruct Hnew. destruct Hflag as [Hflag _]. destruct (Hflag eq_refl) as [?|?]; [discriminate|assumption].
  - intros api2 Hapi2. eexists _, _. split; [apply (Hrun api2 _ Hapi2); destruct self; reflexivity|].
    cbn [devices set_devices].
    set (m1 := foldl upsert_device (devices self) entries).
    assert (Hbound : forall d, In d entries -> exists k, device_key d = Ok k /\ is_Some (m1 !! k)).
    { intros d Hd. rewrite Forall_forall in Hwf'.
      pose proof (Hwf' d (proj2 (list_elem_of_In _ _) Hd)) as Hk.
      destruct (device_key d) as [k|] eqn:Hdk; [|discriminate].
      exists k. split; [reflexivity|].
      destruct (fold_upsert_bound entries (devices self) d k Hd Hdk) as (d' & Hl & _).
      fold m1 in Hl. rewrite Hl. eauto. }
    split.
    + rewrite <- !size_dom. rewrite (fold_upsert_dom entries m1 Hbound). reflexivity.
    + assert (Hrec1 : holds_records m1) by (apply holds_records_fold, Hrec).
      destruct (new_flag m1 entries false) eqn:Hf; [|reflexivity].
      apply (new_flag_spec entries m1 false Hrec1 Hwf') in Hf as [?|(d & Hd & k & Hk & Hnone)]; [discriminate|].
      destruct (Hbound d Hd) as (k' & Hk' & Hs). assert (k' = k) as -> by congruence.
      rewrite Hnone in Hs. destruct Hs as [? ?]. discriminate.
Qed.

Lemma update_device_trackers_cycle_witness :
  let api := sample.up [] VNone in
  let kmac := KStr "68:A3:78:00:00:01" in
  lan_get_hosts_list api = Ok (VList [sample.host "A"]) /\
  Forall (fun d => is_ok (device_key d) = true) [sample.host "A"] /\
  hash_key (mac sample.box) = Ok kmac /\
  holds_records (devices sample.box) /\
  exists self1 evs1,
    update_device_trackers api sample.box = (self1, evs1, Ok tt) /\
    devices self1 !! kmac = Some (self_record sample.box) /\
    dispatched evs1 = [signal_device_update; signal_device_new].
Proof.
  intros api kmac.
  assert (H2 : Forall (fun d => is_ok (device_key d) = true) [sample.host "A"])
    by (repeat constructor).
  assert (H4 : holds_records (devices sample.box)) by apply map_Forall_empty.
  repeat (split; [first [reflexivity | assumption]|]).
  destruct (update_device_trackers_cycle api sample.box [sample.host "A"] kmac
              eq_refl H2 eq_refl H4)
    as (self1 & evs1 & Hrun & Hself & _ & _ & Hnew & _).
  exists self1, evs1. split; [exact Hrun|]. split; [exact Hself|].
  apply Hnew. exists (sample.host "A"). split; [left; reflexivity|].
  exists (KStr "A"). split; reflexivity.
Defined.

(** The scenario of an empty cache and one host: two entries after the
    first poll, which announces a new device; still two after the second,
    which announces none. *)
Example update_device_trackers_two_polls :
  let api := sample.up [] VNone in
  let first := update_device_trackers api sample.box in
  let second := update_device_trackers api (state_of first) in
  size (devices (state_of first)) = 2%nat /\
  dispatched (events_of first) = [signal_device_update; signal_device_new] /\
  size (devices (state_of second)) = 2%nat /\
  dispatched (events_of second) = [signal_device_update].
Proof. vm_compute. repeat split; reflexivity. Qed.

(** ** Remote value accessor *)

(** C3. With [command_id] unset, [get_home_endpoint_value] returns
    [VALUE_NOT_SET] and sends nothing to the remote client; when the remote
    call times out it returns [VALUE_NOT_SET] as well, and the time-out does
    not reach the caller. *)
Theorem get_home_endpoint_value_fails_soft (api : Freepybox)
    (self : FreeboxHomeBaseClass) (command_id : pyval) :
  command_id = VALUE_NOT_SET \/
  home_get_home_endpoint_value api (_id self) command_id = Raise TimeoutError ->
  exists evs,
    get_home_endpoint_value api command_id self = (self, evs, Ok VALUE_NOT_SET) /\
    (command_id = VALUE_NOT_SET -> calls evs = []).
Proof.
  intros H. unfold get_home_endpoint_value.
  destruct (is_none command_id) eqn:Hn.
  - eexists. split; [reflexivity|]. reflexivity.
  - destruct H as [->|H]; [discriminate|].
    unfold bind at 1, get_self at 1. unfold try_except, await, bind, emit, lift.
    rewrite H. cbn. eexists. split; [reflexivity|].
    intros ->. discriminate.
Qed.

Lemma get_home_endpoint_value_fails_soft_witness :
  home_get_home_endpoint_value sample.down (_id sample.entity) (VInt 3)
  = Raise TimeoutError /\
  outcome_of (get_home_endpoint_value sample.down (VInt 3) sample.entity)
  = Ok VALUE_NOT_SET.
Proof.
  split; [reflexivity|].
  destruct (get_home_endpoint_value_fails_soft sample.down sample.entity
              (VInt 3) (or_intror eq_refl)) as (evs & Hrun & _).
  rewrite Hrun. reflexivity.
Defined.

(** The two soft failures on the sample entity, with what each one logs. *)
Example get_home_endpoint_value_unset :
  get_home_endpoint_value sample.down VALUE_NOT_SET sample.entity
  = (sample.entity, [Log ERROR UnableToGet], Ok VALUE_NOT_SET).
Proof. reflexivity. Qed.

Example get_home_endpoint_value_timeout :
  get_home_endpoint_value sample.down (VInt 3) sample.entity
  = (sample.entity,
     [Call (call_home_get_home_endpoint_value (VInt 9) (VInt 3));
      Log WARNING ApiTimeoutRetrieval],
     Ok VALUE_NOT_SET).
Proof. reflexivity. Qed.

(** The claim that a set with a resolved command always returns true fails
    when the remote call times out: nothing catches the exception. *)
Lemma set_home_endpoint_value_timeout_propagates :
  set_home_endpoint_value sample.down (VInt 2) (VDict [("value", VNone)]) sample.entity
  = (sample.entity,
     [Call (call_home_set_home_endpoint_value (VInt 9) (VInt 2) (VDict [("value", VNone)]))],
     Raise TimeoutError)
  /\ outcome_of (set_home_endpoint_value sample.down (VInt 2)
                   (VDict [("value", VNone)]) sample.entity) <> Ok true.
Proof. split; [reflexivity|discriminate]. Qed.

(** C5, amended. [set_home_endpoint_value] leaves the entity and the router
    it points to (so both snapshot caches) as they were.  With [command_id]
    unset it returns false and sends nothing; otherwise it sends exactly one
    set request for this node, and returns true when the request is
    answered, while an exception of the request reaches the caller. *)
Theorem set_home_endpoint_value_spec (api : Freepybox) (self : FreeboxHomeBaseClass)
    (command_id value : pyval) :
  let run := set_home_endpoint_value api command_id value self in
  state_of run = self /\
  home_devices (_router (state_of run)) = home_devices (_router self) /\
  devices (_router (state_of run)) = devices (_router self) /\
  (command_id = VALUE_NOT_SET ->
     outcome_of run = Ok false /\ calls (events_of run) = []) /\
  (command_id <> VALUE_NOT_SET ->
     calls (events_of run)
     = [call_home_set_home_endpoint_value (_id self) command_id value] /\
     (forall ack, home_set_home_endpoint_value api (_id self) command_id value = Ok ack ->
                  outcome_of run = Ok true) /\
     (forall e, home_set_home_endpoint_value api (_id self) command_id value = Raise e ->
                outcome_of run = Raise e)).
Proof.
  assert (Hst : state_of (set_home_endpoint_value api command_id value self) = self).
  { unfold set_home_endpoint_value. destruct (is_none command_id); [reflexivity|].
    unfold bind at 1, get_self at 1. unfold await, bind, emit, lift.
    destruct (home_set_home_endpoint_value api (_id self) command_id value); reflexivity. }
  cbv zeta. rewrite Hst.
  split; [reflexivity|]. split; [reflexivity|]. split; [reflexivity|]. split.
  - intros ->. split; reflexivity.
  - intros Hset.
    assert (Hn : is_none command_id = false)
      by (destruct command_id; try reflexivity; destruct (Hset eq_refl)).
    unfold set_home_endpoint_value. rewrite Hn.
    unfold bind at 1, get_self at 1. unfold await, bind, emit, lift, ret. cbn.
    destruct (home_set_home_endpoint_value api (_id self) command_id value) as [ack|e].
    + cbn. split; [reflexivity|]. split; [reflexivity|]. intros e He. discriminate.
    + cbn. split; [reflexivity|]. split; [intros ack Hack; discriminate|].
      intros e' He. congruence.
Qed.

(** ** Reading a value: what [VALUE_NOT_SET] stands for *)

Lemma get_value_run (self : FreeboxHomeBaseClass) (l : list pyval)
    (ep_type name : string) :
  getitem (_node self) "show_endpoints" = Ok (VList l) ->
  Forall (fun x => is_endpoint x = true) l ->
  get_value ep_type name self
  = match List.find (matches ep_type name) l with
    | None => (self, [Log WARNING (NoNodeFor ep_type name)], Ok VALUE_NOT_SET)
    | Some x => (self, [], dict_get x "value" VALUE_NOT_SET)
    end.
Proof.
  intros Hshow Hl. unfold get_value.
  unfold bind at 1, get_self at 1. unfold bind at 1, lift at 1. rewrite Hshow.
  unfold bind at 1, lift at 1. cbn [py_iter].
  unfold bind at 1, lift at 1. rewrite (next_filter_find ep_type name l Hl).
  destruct (List.find (matches ep_type name) l) as [x|]; [|reflexivity].
  unfold lift. destruct (dict_get x "value" VALUE_NOT_SET); reflexivity.
Qed.

Lemma dict_get_missing (x : pyval) (k : string) (default : pyval) :
  getitem x k = Raise KeyError -> dict_get x k default = Ok default.
Proof.
  destruct x; try discriminate. cbn.
  destruct (dict_lookup k d); [discriminate|reflexivity].
Qed.

(** C10. [VALUE_NOT_SET] is [None], and the read operations answer it for
    distinct conditions: [get_value] when no endpoint of the node carries
    the name and kind, and also when the first one that does has no
    ["value"] field; [get_home_endpoint_value] when the remote answer has no
    ["value"] key.  The three outcomes are the same value. *)
Theorem unset_conflates_absent_and_unknown (api : Freepybox)
    (self : FreeboxHomeBaseClass) (l : list pyval) (ep_type name : string)
    (command_id response : pyval) :
  getitem (_node self) "show_endpoints" = Ok (VList l) ->
  Forall (fun x => is_endpoint x = true) l ->
  command_id <> VALUE_NOT_SET ->
  home_get_home_endpoint_value api (_id self) command_id = Ok response ->
  getitem response "value" = Raise KeyError ->
  VALUE_NOT_SET = VNone /\
  ((forall x, In x l -> matches ep_type name x = false) ->
     outcome_of (get_value ep_type name self) = Ok VNone) /\
  (forall x, List.find (matches ep_type name) l = Some x ->
     getitem x "value" = Raise KeyError ->
     outcome_of (get_value ep_type name self) = Ok VNone) /\
  outcome_of (get_home_endpoint_value api command_id self) = Ok VNone.
Proof.
  intros Hshow Hl Hcmd Hresp Hmiss.
  split; [reflexivity|]. rewrite (get_value_run self l ep_type name Hshow Hl).
  split; [|split].
  - intros Hno. destruct (List.find (matches ep_type name) l) as [x|] eqn:Hf; [|reflexivity].
    apply find_some in Hf as [Hin Hm]. rewrite (Hno x Hin) in Hm. discriminate.
  - intros x -> Hx. cbn. apply dict_get_missing, Hx.
  - assert (Hn : is_none command_id = false)
      by (destruct command_id; try reflexivity; destruct (Hcmd eq_refl)).
    unfold get_home_endpoint_value. rewrite Hn.
    unfold bind at 1, get_self at 1. unfold try_except, await, bind, emit, lift, ret.
    rewrite Hresp. cbn. rewrite (dict_get_missing response "value" _ Hmiss). reflexivity.
Qed.

Lemma unset_conflates_absent_and_unknown_witness :
  let api := sample.up [] (VDict [("refresh", VInt 2000)]) in
  getitem (_node sample.entity) "show_endpoints" = Ok (VList sample.slots) /\
  Forall (fun x => is_endpoint x = true) sample.slots /\
  VInt 4 <> VALUE_NOT_SET /\
  home_get_home_endpoint_value api (_id sample.entity) (VInt 4)
  = Ok (VDict [("refresh", VInt 2000)]) /\
  getitem (VDict [("refresh", VInt 2000)]) "value" = Raise KeyError /\
  outcome_of (get_value "signal" "trigger" sample.entity)
  = outcome_of (get_value "signal" "battery" sample.entity) /\
  outcome_of (get_value "signal" "battery" sample.entity)
  = outcome_of (get_home_endpoint_value api (VInt 4) sample.entity).
Proof.
  intros api.
  assert (H2 : Forall (fun x => is_endpoint x = true) sample.slots)
    by (repeat constructor).
  assert (H3 : VInt 4 <> VALUE_NOT_SET) by discriminate.
  do 5 (split; [first [reflexivity | assumption]|]).
  destruct (unset_conflates_absent_and_unknown api sample.entity sample.slots
              "signal" "trigger" (VInt 4) (VDict [("refresh", VInt 2000)])
              eq_refl H2 H3 eq_refl eq_refl) as (_ & Habsent & _ & Hremote).
  destruct (unset_conflates_absent_and_unknown api sample.entity sample.slots
              "signal" "battery" (VInt 4) (VDict [("refresh", VInt 2000)])
              eq_refl H2 H3 eq_refl eq_refl) as (_ & _ & Hfield & _).
  rewrite Habsent, Hremote, (Hfield (sample.endpoint 4 "signal" "battery" [])).
  - split; reflexivity.
  - reflexivity.
  - reflexivity.
  - intros x Hin. repeat (destruct Hin as [<-|Hin]; [reflexivity|]). destruct Hin.
Defined.

(** ** Home devices *)

Lemma update_home_devices_denied (api : Freepybox) (self : FreeboxRouter) :
  denied api ->
  update_home_devices api self
  = (self, [Call call_home_get_home_nodes; Log WARNING HomeAccessNotGranted], Ok tt).
Proof.
  intros Hd. unfold update_home_devices, bind at 1.
  unfold try_except, await, bind, emit, lift, log, ret. rewrite Hd. reflexivity.
Qed.

Lemma update_home_devices_fetched (api : Freepybox) (self : FreeboxRouter)
    (nodes : list pyval) :
  home_get_home_nodes api = Ok (VList nodes) ->
  update_home_devices api self
  = match home_devices_loop nodes false self with
    | (s1, ev1, Ok new_device) =>
        (set_warning_once true s1,
         Call call_home_get_home_nodes
           :: ev1 ++ Dispatch signal_home_device_update
                  :: (if new_device then [Dispatch signal_home_device_new] else []),
         Ok tt)
    | (s1, ev1, Raise e) => (s1, Call call_home_get_home_nodes :: ev1, Raise e)
    end.
Proof.
  intros Hf. unfold update_home_devices, bind at 1.
  unfold try_except, await, bind at 1 2, emit, lift at 1, ret at 1. rewrite Hf.
  cbn [exn_eqb app]. unfold bind at 1, lift at 1. cbn [py_iter].
  unfold bind at 1.
  destruct (home_devices_loop nodes false self) as [[s1 ev1] [nd|e]]; [|reflexivity].
  unfold bind, modify, async_dispatcher_send, emit, ret.
  destruct nd; cbn; rewrite ?app_nil_r; reflexivity.
Qed.

(** C4. When the client refuses the home node list, [update_home_devices]
    returns normally and leaves the router, its home-device cache and its
    [_use_home] switch included, as it was; nothing is dispatched; and the
    next run goes as it would have without the refusal. *)
Theorem update_home_devices_permission_denied (api : Freepybox) (self : FreeboxRouter) :
  home_get_home_nodes api = Raise InsufficientPermissionsError ->
  exists evs,
    update_home_devices api self = (self, evs, Ok tt) /\
    home_devices (state_of (update_home_devices api self)) = home_devices self /\
    _use_home (state_of (update_home_devices api self)) = _use_home self /\
    dispatched evs = [] /\
    forall api',
      update_home_devices api' (state_of (update_home_devices api self))
      = update_home_devices api' self.
Proof.
  intros Hd. rewrite (update_home_devices_denied api self Hd).
  eexists. do 4 (split; [reflexivity|]). reflexivity.
Qed.

Lemma update_home_devices_permission_denied_witness :
  home_get_home_nodes sample.down = Raise InsufficientPermissionsError /\
  state_of (update_home_devices sample.down sample.box) = sample.box /\
  outcome_of (update_home_devices sample.down sample.box) = Ok tt.
Proof.
  split; [reflexivity|].
  destruct (update_home_devices_permission_denied sample.down sample.box eq_refl)
    as (evs & Hrun & _).
  rewrite Hrun. split; reflexivity.
Defined.

Section HomeDevicesLoop.

Implicit Types (items : list pyval) (self : FreeboxRouter).

(** One step of the loop on a node of an unsupported category. *)
Lemma home_devices_loop_skip home_node items nd self :
  is_ok (getitem home_node "category") = true ->
  supported home_node = false ->
  home_devices_loop (home_node :: items) nd self
  = match home_devices_loop items nd self with
    | (s1, ev1, r) =>
        (s1, (if _warning_once self then [] else [Log WARNING (NodeNotSupported home_node)])
               ++ ev1, r)
    end.
Proof.
  unfold supported. intros Hc Hs. cbn [home_devices_loop].
  unfold bind at 1, lift at 1.
  destruct (getitem home_node "category") as [c|]; [|discriminate].
  rewrite Hs. cbn [negb]. unfold bind at 1, get_self at 1. unfold bind at 1.
  destruct (_warning_once self); cbn;
    destruct (home_devices_loop items nd self) as [[s1 ev1] r]; reflexivity.
Qed.

(** One step of the loop on a node of a supported category. *)
Lemma home_devices_loop_upsert home_node items nd self k :
  supported home_node = true ->
  node_key home_node = Ok k ->
  home_devices_loop (home_node :: items) nd self
  = home_devices_loop items
      (if get_is_none (home_devices self) k then true else nd)
      (set_home_devices (insert k home_node) self).
Proof.
  unfold supported, node_key. intros Hs Hk. cbn [home_devices_loop].
  unfold bind at 1, lift at 1.
  destruct (getitem home_node "category") as [c|]; [|discriminate].
  rewrite Hs. cbn [negb]. unfold bind at 1, lift at 1.
  destruct (getitem home_node "id") as [i|]; [|discriminate]. cbn [rbind] in Hk.
  unfold bind at 1, lift at 1. rewrite Hk.
  unfold bind at 1, get_self at 1. unfold bind at 1, modify at 1.
  destruct (home_devices_loop items _ _) as [[s1 ev1] r]. reflexivity.
Qed.

(** A step that raises: the node has no category, or its category is
    supported and it has no usable id.  Nothing is changed or emitted. *)
Lemma home_devices_loop_raise home_node items nd self :
  is_home_node home_node = false ->
  exists e, home_devices_loop (home_node :: items) nd self = (self, [], Raise e).
Proof.
  unfold is_home_node, supported, node_key. intros Hn. cbn [home_devices_loop].
  unfold bind at 1, lift at 1.
  destruct (getitem home_node "category") as [c|e]; [|exists e; reflexivity].
  cbn [is_ok andb] in Hn. apply orb_false_iff in Hn as [Hs Hk].
  apply negb_false_iff in Hs. rewrite Hs. cbn [negb].
  unfold bind at 1, lift at 1.
  destruct (getitem home_node "id") as [i|e]; [|exists e; reflexivity].
  cbn [rbind] in Hk. unfold bind at 1, lift at 1.
  destruct (hash_key i) as [k|e]; [discriminate|exists e; reflexivity].
Qed.

(** The three cases cover every node. *)
Lemma home_node_cases home_node :
  (is_ok (getitem home_node "category") = true /\ supported home_node = false) \/
  (supported home_node = true /\ exists k, node_key home_node = Ok k) \/
  is_home_node home_node = false.
Proof.
  unfold is_home_node, supported.
  destruct (getitem home_node "category") as [c|]; [|right; right; reflexivity].
  destruct (py_in c supported_categories); [|left; split; reflexivity].
  right. destruct (node_key home_node) as [k|]; [left; eauto|right; reflexivity].
Qed.

(** The loop changes nothing but the home-device cache, and binds only
    nodes of a supported category. *)
Lemma home_devices_loop_frame items : forall nd self,
  match home_devices_loop items nd self with
  | (s1, ev1, r) =>
      _warning_once s1 = _warning_once self /\
      devices s1 = devices self /\
      (_warning_once self = true -> node_warnings ev1 = []) /\
      dispatched ev1 = [] /\
      forall k v, home_devices s1 !! k = Some v ->
                  home_devices self !! k = Some v \/ supported v = true
  end.
Proof.
  induction items as [|home_node items IH]; intros nd self.
  - cbn. repeat split; auto.
  - destruct (home_node_cases home_node) as [[Hc Hs]|[[Hs [k Hk]]|Hbad]].
    + rewrite (home_devices_loop_skip home_node items nd self Hc Hs).
      specialize (IH nd self).
      destruct (home_devices_loop items nd self) as [[s1 ev1] r].
      destruct IH as (Hw & Hd & Hnw & Hdis & Hin).
      repeat split; auto.
      * intros Hon. rewrite Hon. cbn. auto.
      * destruct (_warning_once self); cbn; auto.
    + rewrite (home_devices_loop_upsert home_node items nd self k Hs Hk).
      specialize (IH (if get_is_none (home_devices self) k then true else nd)
                     (set_home_devices (insert k home_node) self)).
      destruct (home_devices_loop items _ _) as [[s1 ev1] r].
      destruct IH as (Hw & Hd & Hnw & Hdis & Hin).
      repeat split; auto.
      intros k' v Hl. destruct (Hin k' v Hl) as [Hl'|Hv]; [|right; exact Hv].
      cbn in Hl'. rewrite lookup_insert in Hl'. case_decide.
      * right. congruence.
      * left. exact Hl'.
    + destruct (home_devices_loop_raise home_node items nd self Hbad) as [e ->].
      repeat split; auto.
Qed.

(** On nodes of the data model the loop completes, and it logs one warning
    per unsupported node when the flag is down. *)
Lemma home_devices_loop_total items : forall nd self,
  Forall (fun n => is_home_node n = true) items ->
  exists s1 ev1 nd1,
    home_devices_loop items nd self = (s1, ev1, Ok nd1) /\
    node_warnings ev1
    = (if _warning_once self then []
       else filter (fun n => supported n = false) items).
Proof.
  induction items as [|home_node items IH]; intros nd self Hwf.
  - exists self, [], nd. split; [reflexivity|]. destruct (_warning_once self); reflexivity.
  - inversion Hwf as [|? ? Hn Hwf']; subst.
    destruct (home_node_cases home_node) as [[Hc Hs]|[[Hs [k Hk]]|Hbad]]; [| |congruence].
    + rewrite (home_devices_loop_skip home_node items nd self Hc Hs).
      destruct (IH nd self Hwf') as (s1 & ev1 & nd1 & -> & Hev).
      eexists _, _, _. split; [reflexivity|].
      rewrite filter_cons_True by exact Hs.
      destruct (_warning_once self); [exact Hev|].
      change (home_node :: node_warnings ev1 = home_node :: filter (fun n => supported n = false) items).
      rewrite Hev. reflexivity.
    + rewrite (home_devices_loop_upsert home_node items nd self k Hs Hk).
      destruct (IH (if get_is_none (home_devices self) k then true else nd)
                   (set_home_devices (insert k home_node) self) Hwf')
        as (s1 & ev1 & nd1 & -> & Hev).
      eexists _, _, _. split; [reflexivity|].
      rewrite filter_cons_False by (rewrite Hs; discriminate).
      exact Hev.
Qed.

End HomeDevicesLoop.

(** What any run keeps, whatever the client answers: the device cache, a
    raised flag and then silence about unsupported nodes, and a home-device
    cache whose new bindings are nodes of a supported category. *)
Lemma update_home_devices_frame (api : Freepybox) (self : FreeboxRouter) :
  match update_home_devices api self with
  | (s1, ev1, r) =>
      devices s1 = devices self /\
      (_warning_once self = true -> _warning_once s1 = true /\ node_warnings ev1 = []) /\
      forall k v, home_devices s1 !! k = Some v ->
                  home_devices self !! k = Some v \/ supported v = true
  end.
Proof.
  unfold update_home_devices, bind at 1.
  unfold try_except, await, bind at 1 2, emit, lift at 1, ret at 1.
  destruct (home_get_home_nodes api) as [v|e].
  - cbn [exn_eqb app]. unfold bind at 1, lift at 1.
    destruct (py_iter v) as [items|e]; [|cbn; auto].
    unfold bind at 1. pose proof (home_devices_loop_frame items false self) as Hloop.
    destruct (home_devices_loop items false self) as [[s1 ev1] [nd|e]].
    + destruct Hloop as (Hw & Hd & Hnw & Hdis & Hin).
      unfold bind, modify, async_dispatcher_send, emit, ret.
      destruct nd; cbn; (split; [exact Hd|]); (split; [|exact Hin]);
        intros Hon; (split; [reflexivity|]); unfold node_warnings in *;
        rewrite omap_app, (Hnw Hon); reflexivity.
    + destruct Hloop as (Hw & Hd & Hnw & Hdis & Hin). cbn.
      split; [exact Hd|]. split; [|exact Hin]. intros Hon. split; [congruence|auto].
  - destruct e; cbn; auto.
Qed.

(** C9. Whatever the client answers, a run of [update_home_devices] binds in
    the home-device cache only nodes whose category is one of pir, camera,
    alarm, dws, kfb, basic_shutter, opener, shutter; so a cache of supported
    records stays one, and every cache reached from a fresh router is one. *)
Theorem home_cache_only_supported (api : Freepybox) (self : FreeboxRouter)
    (ticks : list Freepybox) (use_home : bool) :
  let self1 := state_of (update_home_devices api self) in
  (forall k v, home_devices self1 !! k = Some v ->
               home_devices self !! k = Some v \/ supported v = true) /\
  (all_supported (home_devices self) -> all_supported (home_devices self1)) /\
  all_supported (home_devices (fst (poll_home_devices ticks (init use_home)))).
Proof.
  assert (Hstep : forall api self,
            all_supported (home_devices self) ->
            all_supported (home_devices (state_of (update_home_devices api self)))).
  { intros api' s Hs k v Hl. pose proof (update_home_devices_frame api' s) as Hf.
    destruct (update_home_devices api' s) as [[s1 ev1] r].
    destruct Hf as (_ & _ & Hin). destruct (Hin k v Hl) as [Hold|Hv]; [|exact Hv].
    exact (Hs k v Hold). }
  cbv zeta. split; [|split].
  - pose proof (update_home_devices_frame api self) as Hf.
    destruct (update_home_devices api self) as [[s1 ev1] r]. apply Hf.
  - apply Hstep.
  - assert (Hpoll : forall ticks s, all_supported (home_devices s) ->
              all_supported (home_devices (fst (poll_home_devices ticks s)))).
    { clear ticks. induction ticks as [|a ticks IH]; intros s Hs; [exact Hs|].
      cbn [poll_home_devices]. specialize (Hstep a s Hs).
      destruct (update_home_devices a s) as [[s1 ev1] r].
      specialize (IH s1 Hstep). destruct (poll_home_devices ticks s1). exact IH. }
    apply Hpoll. apply map_Forall_empty.
Qed.

(** A poll of several unsupported nodes logs the warning for each of them:
    more than once. *)
Lemma unsupported_warning_twice_in_first_poll :
  let api := sample.up [sample.home_node 1 "light" []; sample.home_node 2 "plug" []] VNone in
  node_warnings (events_of (update_home_devices api sample.box))
  = [sample.home_node 1 "light" []; sample.home_node 2 "plug" []]
  /\ ~ (length (node_warnings (snd (poll_home_devices [api] sample.box))) <= 1)%nat.
Proof. split; [reflexivity|]. cbn. lia. Qed.

Lemma poll_home_devices_silent (ticks : list Freepybox) : forall self,
  _warning_once self = true ->
  node_warnings (snd (poll_home_devices ticks self)) = [].
Proof.
  induction ticks as [|a ticks IH]; intros self Hon; [reflexivity|].
  cbn [poll_home_devices]. pose proof (update_home_devices_frame a self) as Hf.
  destruct (update_home_devices a self) as [[s1 ev1] r].
  destruct Hf as (_ & Hw & _). destruct (Hw Hon) as [Hon1 Hev].
  specialize (IH s1 Hon1). destruct (poll_home_devices ticks s1) as [s2 ev2].
  cbn in *. unfold node_warnings in *. rewrite omap_app, Hev, IH. reflexivity.
Qed.

Lemma poll_home_devices_denied (refused ticks : list Freepybox) : forall self,
  Forall denied refused ->
  node_warnings (snd (poll_home_devices (refused ++ ticks) self))
  = node_warnings (snd (poll_home_devices ticks self)).
Proof.
  induction refused as [|a refused IH]; intros self Hr; [reflexivity|].
  inversion Hr as [|? ? Ha Hr']; subst.
  cbn [app poll_home_devices]. rewrite (update_home_devices_denied a self Ha).
  specialize (IH self Hr'). destruct (poll_home_devices (refused ++ ticks) self).
  cbn in *. exact IH.
Qed.

(** C6, amended. On one router, the unsupported-category warning is logged
    in one poll only, the first whose node list is processed: once for each
    node of that list whose category is not supported.  Refused polls before
    it and all polls after it log none. *)
Theorem unsupported_warning_first_poll_only (refused ticks : list Freepybox)
    (api : Freepybox) (nodes : list pyval) (self : FreeboxRouter) :
  _warning_once self = false ->
  Forall denied refused ->
  home_get_home_nodes api = Ok (VList nodes) ->
  Forall (fun n => is_home_node n = true) nodes ->
  node_warnings (snd (poll_home_devices (refused ++ api :: ticks) self))
  = filter (fun n => supported n = false) nodes
  /\ _warning_once (fst (poll_home_devices (refused ++ [api]) self)) = true.
Proof.
  intros Hoff Hr Hf Hwf. split.
  - rewrite (poll_home_devices_denied refused (api :: ticks) self Hr).
    cbn [poll_home_devices]. rewrite (update_home_devices_fetched api self nodes Hf).
    destruct (home_devices_loop_total nodes false self Hwf) as (s1 & ev1 & nd1 & Hrun & Hev).
    rewrite Hrun, Hoff in *.
    pose proof (poll_home_devices_silent ticks (set_warning_once true s1) eq_refl) as Hs.
    destruct (poll_home_devices ticks (set_warning_once true s1)) as [s2 ev2].
    cbn in *. unfold node_warnings in *. rewrite !omap_app, Hev, Hs.
    destruct nd1; cbn; rewrite !app_nil_r; reflexivity.
  - revert self Hoff. induction Hr as [|a refused Ha Hr IH]; intros self Hoff.
    + cbn [app poll_home_devices]. rewrite (update_home_devices_fetched api self nodes Hf).
      destruct (home_devices_loop_total nodes false self Hwf) as (s1 & ev1 & nd1 & -> & _).
      reflexivity.
    + cbn [app poll_home_devices]. rewrite (update_home_devices_denied a self Ha).
      specialize (IH self Hoff). destruct (poll_home_devices (refused ++ [api]) self).
      exact IH.
Qed.

Lemma unsupported_warning_first_poll_only_witness :
  let first := sample.up [sample.home_node 1 "light" []; sample.home_node 2 "pir" [];
                          sample.home_node 3 "plug" []] VNone in
  let later := sample.up [sample.home_node 1 "light" []; sample.home_node 4 "siren" []] VNone in
  _warning_once sample.box = false /\
  Forall denied [sample.down] /\
  Forall (fun n => is_home_node n = true)
    [sample.home_node 1 "light" []; sample.home_node 2 "pir" []; sample.home_node 3 "plug" []] /\
  node_warnings
    (snd (poll_home_devices ([sample.down] ++ first :: [later; sample.down; later]) sample.box))
  = [sample.home_node 1 "light" []; sample.home_node 3 "plug" []].
Proof.
  intros first later.
  assert (H2 : Forall denied [sample.down]) by (repeat constructor).
  assert (H4 : Forall (fun n => is_home_node n = true)
                 [sample.home_node 1 "light" []; sample.home_node 2 "pir" [];
                  sample.home_node 3 "plug" []]) by (repeat constructor).
  split; [reflexivity|]. split; [exact H2|]. split; [exact H4|].
  destruct (unsupported_warning_first_poll_only [sample.down] [later; sample.down; later]
              first _ sample.box eq_refl H2 eq_refl H4) as [Hlog _].
  rewrite Hlog. reflexivity.
Defined.

(** ** The motion-sensor watcher *)

(** [get_home_endpoint_value] catches the time-out itself: it never raises
    one, it leaves the entity as it was, and it logs its own warning when
    the client timed out. *)
Lemma get_home_endpoint_value_never_times_out (api : Freepybox)
    (self : FreeboxHomeBaseClass) (command_id : pyval) :
  exists evs r,
    get_home_endpoint_value api command_id self = (self, evs, r) /\
    r <> Raise TimeoutError /\
    ~ In (Log WARNING PirApiTimeout) evs.
Proof.
  unfold get_home_endpoint_value.
  destruct (is_none command_id).
  { eexists _, _. split; [reflexivity|]. split; [discriminate|]. intros [H|[]]; discriminate. }
  unfold bind at 1, get_self at 1. unfold try_except, await, bind, emit, lift, ret, log.
  cbn beta.
  destruct (home_get_home_endpoint_value api (_id self) command_id) as [node|e]; cbn.
  - eexists _, _. split; [reflexivity|]. split; [|intros [H|[]]; discriminate].
    destruct node as [| | | | |d]; cbn; try discriminate.
    destruct (dict_lookup "value" d); discriminate.
  - destruct e; cbn; eexists _, _; (split; [reflexivity|]); (split; [discriminate|]);
      intros H; repeat (destruct H as [H|H]; [discriminate|]); destruct H.
Qed.

(** So the handler of [async_watcher] is never entered: whatever the client
    answers, the watcher does not log its own warning and never raises
    [_had_timeout]. *)
Lemma async_watcher_handler_unreachable (api : Freepybox) (self : FreeboxPir) :
  exists self1 evs r,
    async_watcher api self = (self1, evs, r) /\
    ~ In (Log WARNING PirApiTimeout) evs /\
    (_had_timeout self = false -> _had_timeout self1 = false).
Proof.
  unfold async_watcher, try_except, bind, get_self, binary_sensor.inherited, zoom, modify, emit, ret.
  cbn beta.
  destruct (get_home_endpoint_value_never_times_out api (pir_base self)
              (_command_trigger self)) as (ev1 & r & -> & Hne & Hlog).
  destruct r as [detection|e].
  - cbn [_detection set_had_timeout set_pir_base].
    destruct (py_eq_bool (_detection self) detection); cbn;
      eexists _, _, _; (split; [reflexivity|]); (split; [|reflexivity]).
    + rewrite in_app_iff. intros [H|[H|[]]]; [auto|discriminate].
    + rewrite app_nil_r. exact Hlog.
  - destruct e; cbn; try (eexists _, _, _; split; [reflexivity|]; split; [exact Hlog|auto]).
    destruct (Hne eq_refl).
Qed.

(** On a time-out the watcher returns normally, the retrieval logs its
    warning, and the sensor is left as it was. *)
Lemma async_watcher_timeout (api : Freepybox) (self : FreeboxPir) :
  _command_trigger self <> VALUE_NOT_SET ->
  _had_timeout self = false ->
  home_get_home_endpoint_value api (_id (pir_base self)) (_command_trigger self)
  = Raise TimeoutError ->
  async_watcher api self
  = (self,
     [Call (call_home_get_home_endpoint_value (_id (pir_base self)) (_command_trigger self));
      Log WARNING ApiTimeoutRetrieval],
     Ok tt).
Proof.
  intros Hcmd Hoff Hto.
  assert (Hn : is_none (_command_trigger self) = false)
    by (destruct (_command_trigger self); try reflexivity; destruct (Hcmd eq_refl)).
  unfold async_watcher, try_except.
  unfold bind at 1, get_self at 1. unfold bind at 1, binary_sensor.inherited at 1, zoom.
  unfold get_home_endpoint_value. rewrite Hn.
  unfold bind at 1, get_self at 1. unfold try_except, await, bind, emit, lift, ret, log, modify.
  rewrite Hto. destruct self as [b c d t]. cbn in *. subst t.
  destruct d; reflexivity.
Qed.

(** Over any sequence of ticks the watcher's own warning stays unlogged. *)
Lemma watch_never_logs_own_warning (ticks : list Freepybox) : forall self,
  ~ In (Log WARNING PirApiTimeout) (snd (watch ticks self)).
Proof.
  induction ticks as [|api ticks IH]; intros self; [intros []|].
  cbn [watch].
  destruct (async_watcher_handler_unreachable api self) as (s1 & ev1 & r & -> & Hlog & _).
  specialize (IH s1). destruct (watch ticks s1) as [s2 ev2]. cbn in *.
  rewrite in_app_iff. tauto.
Qed.

(** C8: the code at the failing input.  Three consecutive time-outs after a
    success: each of them, the first included, logs the retrieval warning;
    the watcher's own warning is never logged and its parity flag never
    raised. *)
Theorem async_watcher_logs_every_timeout :
  watch [sample.down; sample.down; sample.down] sample_pir.pir
  = (sample_pir.pir,
     [Call (call_home_get_home_endpoint_value (VInt 9) (VInt 5));
      Log WARNING ApiTimeoutRetrieval;
      Call (call_home_get_home_endpoint_value (VInt 9) (VInt 5));
      Log WARNING ApiTimeoutRetrieval;
      Call (call_home_get_home_endpoint_value (VInt 9) (VInt 5));
      Log WARNING ApiTimeoutRetrieval]).
Proof. reflexivity. Qed.

(** ** The shutter position *)

Section Hex.

Import base64.

Lemma hex_length (bs : list Z) : String.length (hex bs) = (2 * length bs)%nat.
Proof. induction bs as [|b bs IH]; [reflexivity|]. cbn [hex String.length length]. lia. Qed.

Lemma substring_hex_skip (b : Z) (bs : list Z) (n m : nat) :
  String.substring (S (S n)) m (hex (b :: bs)) = String.substring n m (hex bs).
Proof. reflexivity. Qed.

Lemma hex_substring (bs : list Z) : forall i : nat,
  (i < length bs)%nat ->
  String.substring (2 * i) 2 (hex bs) = hex [nth i bs 0].
Proof.
  induction bs as [|b bs IH]; intros i Hi; [cbn in Hi; lia|].
  destruct i as [|i].
  - cbn. destruct (hex bs); reflexivity.
  - replace (2 * S i)%nat with (S (S (2 * i))) by lia.
    rewrite substring_hex_skip. cbn [nth]. apply IH. cbn in Hi. lia.
Qed.

(** Distinct digit values print as distinct characters. *)
Lemma hex_digit_inj (n m : Z) :
  0 <= n < 16 -> 0 <= m < 16 -> hex_digit n = hex_digit m -> n = m.
Proof.
  intros Hn Hm H. apply Z2Nat.inj; try lia.
  unfold hex_digit in H.
  assert (Hi : (Z.to_nat n < 16)%nat) by lia.
  assert (Hj : (Z.to_nat m < 16)%nat) by lia.
  revert H Hi Hj. generalize (Z.to_nat n) (Z.to_nat m). clear.
  intros i j.
  do 16 (destruct i as [|i];
         [do 16 (destruct j as [|j]; [first [reflexivity | discriminate]|]); lia|]).
  lia.
Qed.

Lemma hex_byte_eq (b c : Z) :
  0 <= b < 256 -> 0 <= c < 256 -> hex [b] = hex [c] <-> b = c.
Proof.
  intros Hb Hc. split; [|intros ->; reflexivity].
  cbn [hex]. intros H. injection H as H1 H2.
  assert (Hdiv : forall x, 0 <= x < 256 -> 0 <= x / 16 < 16).
  { intros x Hx. split; [apply Z.div_pos; lia|apply Z.div_lt_upper_bound; lia]. }
  assert (Hmod : forall x, 0 <= x mod 16 < 16).
  { intros x. apply Z.mod_pos_bound. reflexivity. }
  apply hex_digit_inj in H1; [|apply Hdiv, Hb|apply Hdiv, Hc].
  apply hex_digit_inj in H2; [|apply Hmod|apply Hmod].
  rewrite (Z.div_mod b 16), (Z.div_mod c 16) by lia. congruence.
Qed.

Lemma a2b_base64_bytes (ascii_data : list Z) : forall quad_pos leftchar pads bin_data raw,
  Forall (fun b => 0 <= b < 256) bin_data ->
  a2b_base64 ascii_data quad_pos leftchar pads bin_data = Ok raw ->
  Forall (fun b => 0 <= b < 256) raw.
Proof.
  assert (Hbyte : forall x, 0 <= Z.land x 255 < 256).
  { intros x. change 255 with (Z.ones 8). rewrite Z.land_ones by lia.
    apply Z.mod_pos_bound. reflexivity. }
  induction ascii_data as [|this_ch rest IH]; intros quad_pos leftchar pads bin_data raw Hb.
  - cbn. destruct (quad_pos =? 0); [|discriminate]. intros [= <-]. exact Hb.
  - cbn [a2b_base64].
    repeat match goal with
           | |- context [if ?c then _ else _] => destruct c
           end;
      first [ intros [= <-]; exact Hb
            | apply IH; first [exact Hb | apply Forall_app; split; [exact Hb|]; constructor; [apply Hbyte|constructor]] ].
Qed.

Lemma b64decode_bytes (state : pyval) (raw : list Z) :
  b64decode state = Ok raw -> Forall (fun b => 0 <= b < 256) raw.
Proof.
  destruct state as [| | |s| |]; try discriminate. cbn [b64decode].
  destruct (forallb _ _); [|discriminate].
  apply a2b_base64_bytes. constructor.
Qed.

End Hex.

Example closed_blob_decodes :
  base64.b64decode (VStr sample_cover.closed_blob)
  = Ok (repeat 0 50 ++ [200] ++ repeat 0 8).
Proof. reflexivity. Qed.

(** [get_value] only reads. *)
Lemma get_value_pure (ep_type name : string) (self : FreeboxHomeBaseClass) :
  exists evs r, get_value ep_type name self = (self, evs, r).
Proof.
  unfold get_value, bind, get_self, lift, log, emit, ret. cbn beta.
  destruct (getitem (_node self) "show_endpoints") as [eps|]; [|eauto].
  destruct (py_iter eps) as [items|]; [|eauto].
  destruct (next_filter ep_type name items) as [[x|]|]; cbn; eauto.
Qed.

(** The decoder raises on a state that is not base64 ([binascii.Error]) and
    on a missing state ([TypeError]); and on a decodable state of the wrong
    length, an inverted shutter is set to [100 - position_set] (70), not to
    [position_set] (30). *)
Lemma update_current_position_raises_on_undecodable :
  outcome_of (update_current_position
                (sample_cover.shutter [("value", VStr "A")] [("value", VInt 30)] true))
  = Raise BinasciiError
  /\ outcome_of (update_current_position
                   (sample_cover.shutter [] [("value", VInt 30)] true))
     = Raise TypeError
  /\ _current_position
       (state_of (update_current_position
                    (sample_cover.shutter [("value", VStr "AAAA")] [("value", VInt 30)] true)))
     = VInt 70.
Proof. repeat split; reflexivity. Qed.

(** C7, amended. For every state that base64-decodes and every integer
    [position_set], [update_current_position] does not raise.  When the
    decoded state is not 59 bytes long the position falls back to
    [position_set], taken as [100 - position_set] on an inverted shutter.
    When it is 59 bytes long, byte 50 decides: 0x00 gives 100, 0xc8 gives 0,
    and any other value gives the same fallback when [position_set] is
    strictly between 0 and 100, and 50 otherwise. *)
Theorem update_current_position_decodable (self : FreeboxShutter) (state : pyval)
    (raw : list Z) (p : Z) :
  outcome_of (get_value "signal" "state" (shutter_base self)) = Ok state ->
  outcome_of (get_value "signal" "position_set" (shutter_base self)) = Ok (VInt p) ->
  base64.b64decode state = Ok raw ->
  let basic := if _invert_position self then 100 - p else p in
  exists self1 evs,
    update_current_position self = (self1, evs, Ok tt) /\
    (length raw <> 59%nat -> _current_position self1 = VInt basic) /\
    (length raw = 59%nat -> nth 50 raw 0 = 0 -> _current_position self1 = VInt 100) /\
    (length raw = 59%nat -> nth 50 raw 0 = 200 -> _current_position self1 = VInt 0) /\
    (length raw = 59%nat -> nth 50 raw 0 <> 0 -> nth 50 raw 0 <> 200 ->
       0 < p < 100 -> _current_position self1 = VInt basic) /\
    (length raw = 59%nat -> nth 50 raw 0 <> 0 -> nth 50 raw 0 <> 200 ->
       ~ 0 < p < 100 -> _current_position self1 = VInt 50).
Proof.
  intros H1 H2 H3 basic. destruct self as [base inv cur].
  cbn [shutter_base _invert_position] in *.
  destruct (get_value_pure "signal" "state" base) as (e1 & r1 & E1).
  destruct (get_value_pure "signal" "position_set" base) as (e2 & r2 & E2).
  rewrite E1 in H1. rewrite E2 in H2. cbn in H1, H2. subst r1 r2.
  unfold update_current_position, bind, cover.inherited, zoom, lift, get_self, log,
    emit, modify, ret.
  cbn beta. cbn [shutter_base]. rewrite E1. cbn [shutter_base set_shutter_base _invert_position _current_position].
  rewrite E2. cbn [shutter_base set_shutter_base _invert_position _current_position].
  rewrite H3. clear E1 E2.
  pose proof (hex_length raw) as HL.
  destruct (Nat.eqb (String.length (base64.hex raw)) 118) eqn:E118; cbn [negb].
  - apply Nat.eqb_eq in E118. assert (Hlen : length raw = 59%nat) by lia.
    assert (Hsub : String.substring 100 2 (base64.hex raw) = base64.hex [nth 50 raw 0])
      by (apply (hex_substring raw 50); lia).
    rewrite Hsub.
    assert (Hb : 0 <= nth 50 raw 0 < 256).
    { pose proof (b64decode_bytes state raw H3) as Hall.
      rewrite Forall_forall in Hall. apply Hall, list_elem_of_In, nth_In. lia. }
    set (b := nth 50 raw 0) in *.
    assert (H00 : (base64.hex [b] =? "00")%string = true <-> b = 0).
    { rewrite String.eqb_eq. change "00" with (base64.hex [0]). apply hex_byte_eq; lia. }
    assert (Hc8 : (base64.hex [b] =? "c8")%string = true <-> b = 200).
    { rewrite String.eqb_eq. change "c8" with (base64.hex [200]). apply hex_byte_eq; lia. }
    destruct (base64.hex [b] =? "00")%string eqn:E00.
    { cbn. eexists _, _. split; [reflexivity|]. cbn.
      assert (b = 0) by tauto. repeat split; intros; first [reflexivity|lia]. }
    destruct (base64.hex [b] =? "c8")%string eqn:Ec8.
    { cbn. eexists _, _. split; [reflexivity|]. cbn.
      assert (b = 200) by tauto. repeat split; intros; first [reflexivity|lia]. }
    assert (b <> 0) by (intros Hz; apply H00 in Hz; discriminate).
    assert (b <> 200) by (intros Hz; apply Hc8 in Hz; discriminate).
    cbn [py_gt py_lt as_int rbind].
    destruct (0 <? p) eqn:Egt; [destruct (p <? 100) eqn:Elt|];
      try apply Z.ltb_lt in Egt; try apply Z.ltb_ge in Egt;
      try apply Z.ltb_lt in Elt; try apply Z.ltb_ge in Elt;
      destruct inv; cbn; eexists _, _; (split; [reflexivity|]); cbn;
      repeat split; intros; first [reflexivity|lia].
  - apply Nat.eqb_neq in E118. assert (Hlen : length raw <> 59%nat) by lia.
    destruct inv; cbn; eexists _, _; (split; [reflexivity|]); cbn;
      repeat split; intros; first [reflexivity|lia].
Qed.

Lemma update_current_position_decodable_witness :
  let self := sample_cover.shutter [("value", VStr sample_cover.closed_blob)]
                [("value", VInt 30)] true in
  outcome_of (get_value "signal" "state" (shutter_base self))
  = Ok (VStr sample_cover.closed_blob) /\
  outcome_of (get_value "signal" "position_set" (shutter_base self)) = Ok (VInt 30) /\
  base64.b64decode (VStr sample_cover.closed_blob)
  = Ok (repeat 0 50 ++ [200] ++ repeat 0 8) /\
  exists self1 evs,
    update_current_position self = (self1, evs, Ok tt) /\
    _current_position self1 = VInt 0.
Proof.
  intros self. do 3 (split; [reflexivity|]).
  destruct (update_current_position_decodable self (VStr sample_cover.closed_blob)
              (repeat 0 50 ++ [200] ++ repeat 0 8) 30 eq_refl eq_refl eq_refl)
    as (self1 & evs & Hrun & _ & _ & Hclosed & _).
  exists self1, evs. split; [exact Hrun|]. apply Hclosed; reflexivity.
Defined.

(** The fallbacks on the sample shutter: a short state, and a full-length
    state whose byte 50 is neither marker, with [position_set] at a bound. *)
Example update_current_position_short_state :
  _current_position
    (state_of (update_current_position
                 (sample_cover.shutter [("value", VStr "AAAA")] [("value", VInt 30)] false)))
  = VInt 30.
Proof. reflexivity. Qed.

Example update_current_position_midpoint :
  _current_position
    (state_of (update_current_position
                 (sample_cover.shutter
                    [("value", VStr "AAAAAAAAAAAAAAAAAAAAAAAAAAAAAAAAAAAAAAAAAAAAAAAAAAAAAAAAAAAAAAAAAAAHAAAAAAAAAAA=")]
                    [("value", VInt 100)] true)))
  = VInt 50.
Proof. reflexivity. Qed.

(* ===================================================================== *)
(** * Further properties of the embedded code *)

(** ** The watcher's reading *)

(** X1. A successful read of a boolean trigger leaves the sensor reporting the
    negation of the reading; the state is written exactly when it changed,
    and the time-out flag is down. *)
Theorem async_watcher_reports_negated_trigger (api : Freepybox) (self : FreeboxPir)
    (response : pyval) (d : bool) :
  _command_trigger self <> VALUE_NOT_SET ->
  home_get_home_endpoint_value api (_id (pir_base self)) (_command_trigger self)
  = Ok response ->
  getitem response "value" = Ok (VBool d) ->
  exists self1 evs,
    async_watcher api self = (self1, evs, Ok tt) /\
    _detection self1 = negb d /\
    (In WriteHaState evs <-> _detection self <> negb d) /\
    _had_timeout self1 = false /\
    pir_base self1 = pir_base self.
Proof.
  intros Hcmd Hresp Hval.
  assert (Hn : is_none (_command_trigger self) = false)
    by (destruct (_command_trigger self); try reflexivity; destruct (Hcmd eq_refl)).
  assert (Hget : dict_get response "value" VALUE_NOT_SET = Ok (VBool d)).
  { destruct response as [| | | | |e]; try discriminate. cbn in *.
    destruct (dict_lookup "value" e); [congruence|discriminate]. }
  unfold async_watcher, try_except, bind, get_self, binary_sensor.inherited, zoom,
    modify, emit, ret.
  cbn beta. unfold get_home_endpoint_value. rewrite Hn.
  unfold bind, get_self, try_except, await, bind, emit, lift, ret, log. cbn beta.
  rewrite Hresp. cbn [exn_eqb app]. rewrite Hget.
  destruct self as [b c det t]. cbn [_detection set_had_timeout set_pir_base pir_base
    _command_trigger _had_timeout set_detection py_eq_bool truthy].
  destruct det, d; cbn; eexists _, _; (split; [reflexivity|]); cbn;
    (split; [reflexivity|]); (split; [|split; reflexivity]);
    (split; [ first [ intros _; discriminate
                    | intros H; repeat (destruct H as [H|H]; try discriminate); destruct H ]
            | first [ intros _; cbn; tauto
                    | intros H; exfalso; apply H; reflexivity ] ]).
Qed.

Lemma async_watcher_reports_negated_trigger_witness :
  let api := sample.up [] (VDict [("value", VBool false)]) in
  _command_trigger sample_pir.pir <> VALUE_NOT_SET /\
  home_get_home_endpoint_value api (_id (pir_base sample_pir.pir))
    (_command_trigger sample_pir.pir) = Ok (VDict [("value", VBool false)]) /\
  getitem (VDict [("value", VBool false)]) "value" = Ok (VBool false) /\
  _detection (state_of (async_watcher api sample_pir.pir)) = true.
Proof.
  intros api.
  assert (H1 : _command_trigger sample_pir.pir <> VALUE_NOT_SET) by discriminate.
  split; [exact H1|]. split; [reflexivity|]. split; [reflexivity|].
  destruct (async_watcher_reports_negated_trigger api sample_pir.pir
              (VDict [("value", VBool false)]) false H1 eq_refl eq_refl)
    as (self1 & evs & Hrun & Hdet & _).
  rewrite Hrun. exact Hdet.
Defined.

(** ** The shutter position, continued *)

(** The decoding table of [update_current_position], for use below. *)
Lemma update_current_position_cases (self : FreeboxShutter) (state : pyval)
    (raw : list Z) (p : Z) :
  outcome_of (get_value "signal" "state" (shutter_base self)) = Ok state ->
  outcome_of (get_value "signal" "position_set" (shutter_base self)) = Ok (VInt p) ->
  base64.b64decode state = Ok raw ->
  let basic := if _invert_position self then 100 - p else p in
  exists self1 evs,
    update_current_position self = (self1, evs, Ok tt) /\
    (length raw <> 59%nat -> _current_position self1 = VInt basic) /\
    (length raw = 59%nat -> nth 50 raw 0 = 0 -> _current_position self1 = VInt 100) /\
    (length raw = 59%nat -> nth 50 raw 0 = 200 -> _current_position self1 = VInt 0) /\
    (length raw = 59%nat -> nth 50 raw 0 <> 0 -> nth 50 raw 0 <> 200 ->
       0 < p < 100 -> _current_position self1 = VInt basic) /\
    (length raw = 59%nat -> nth 50 raw 0 <> 0 -> nth 50 raw 0 <> 200 ->
       ~ 0 < p < 100 -> _current_position self1 = VInt 50).
Proof.
  intros H1 H2 H3 basic. destruct self as [base inv cur].
  cbn [shutter_base _invert_position] in *.
  destruct (get_value_pure "signal" "state" base) as (e1 & r1 & E1).
  destruct (get_value_pure "signal" "position_set" base) as (e2 & r2 & E2).
  rewrite E1 in H1. rewrite E2 in H2. cbn in H1, H2. subst r1 r2.
  unfold update_current_position, bind, cover.inherited, zoom, lift, get_self, log,
    emit, modify, ret.
  cbn beta. cbn [shutter_base]. rewrite E1. cbn [shutter_base set_shutter_base _invert_position _current_position].
  rewrite E2. cbn [shutter_base set_shutter_base _invert_position _current_position].
  rewrite H3. clear E1 E2.
  pose proof (hex_length raw) as HL.
  destruct (Nat.eqb (String.length (base64.hex raw)) 118) eqn:E118; cbn [negb].
  - apply Nat.eqb_eq in E118. assert (Hlen : length raw = 59%nat) by lia.
    assert (Hsub : String.substring 100 2 (base64.hex raw) = base64.hex [nth 50 raw 0])
      by (apply (hex_substring raw 50); lia).
    rewrite Hsub.
    assert (Hb : 0 <= nth 50 raw 0 < 256).
    { pose proof (b64decode_bytes state raw H3) as Hall.
      rewrite Forall_forall in Hall. apply Hall, list_elem_of_In, nth_In. lia. }
    set (b := nth 50 raw 0) in *.
    assert (H00 : (base64.hex [b] =? "00")%string = true <-> b = 0).
    { rewrite String.eqb_eq. change "00" with (base64.hex [0]). apply hex_byte_eq; lia. }
    assert (Hc8 : (base64.hex [b] =? "c8")%string = true <-> b = 200).
    { rewrite String.eqb_eq. change "c8" with (base64.hex [200]). apply hex_byte_eq; lia. }
    destruct (base64.hex [b] =? "00")%string eqn:E00.
    { cbn. eexists _, _. split; [reflexivity|]. cbn.
      assert (b = 0) by tauto. repeat split; intros; first [reflexivity|lia]. }
    destruct (base64.hex [b] =? "c8")%string eqn:Ec8.
    { cbn. eexists _, _. split; [reflexivity|]. cbn.
      assert (b = 200) by tauto. repeat split; intros; first [reflexivity|lia]. }
    assert (b <> 0) by (intros Hz; apply H00 in Hz; discriminate).
    assert (b <> 200) by (intros Hz; apply Hc8 in Hz; discriminate).
    cbn [py_gt py_lt as_int rbind].
    destruct (0 <? p) eqn:Egt; [destruct (p <? 100) eqn:Elt|];
      try apply Z.ltb_lt in Egt; try apply Z.ltb_ge in Egt;
      try apply Z.ltb_lt in Elt; try apply Z.ltb_ge in Elt;
      destruct inv; cbn; eexists _, _; (split; [reflexivity|]); cbn;
      repeat split; intros; first [reflexivity|lia].
  - apply Nat.eqb_neq in E118. assert (Hlen : length raw <> 59%nat) by lia.
    destruct inv; cbn; eexists _, _; (split; [reflexivity|]); cbn;
      repeat split; intros; first [reflexivity|lia].
Qed.

(** X2. When [position_set] lies between 0 and 100, so does the position the
    decoder sets, whatever the decodable state. *)
Theorem update_current_position_in_range (self : FreeboxShutter) (state : pyval)
    (raw : list Z) (p : Z) :
  outcome_of (get_value "signal" "state" (shutter_base self)) = Ok state ->
  outcome_of (get_value "signal" "position_set" (shutter_base self)) = Ok (VInt p) ->
  base64.b64decode state = Ok raw ->
  0 <= p <= 100 ->
  exists self1 evs q,
    update_current_position self = (self1, evs, Ok tt) /\
    _current_position self1 = VInt q /\ 0 <= q <= 100.
Proof.
  intros H1 H2 H3 Hp.
  destruct (update_current_position_cases self state raw p H1 H2 H3)
    as (self1 & evs & Hrun & Hshort & Hopen & Hclosed & Hmid & Hfar).
  exists self1, evs.
  destruct (decide (length raw = 59%nat)) as [Hlen|Hlen].
  - destruct (decide (nth 50 raw 0 = 0)) as [H0|H0].
    { exists 100. split; [exact Hrun|]. split; [apply Hopen; assumption|lia]. }
    destruct (decide (nth 50 raw 0 = 200)) as [Hc|Hc].
    { exists 0. split; [exact Hrun|]. split; [apply Hclosed; assumption|lia]. }
    destruct (decide (0 < p < 100)) as [Hin|Hout].
    + eexists. split; [exact Hrun|]. split; [apply Hmid; assumption|].
      destruct (_invert_position self); lia.
    + exists 50. split; [exact Hrun|]. split; [apply Hfar; assumption|lia].
  - eexists. split; [exact Hrun|]. split; [apply Hshort; assumption|].
    destruct (_invert_position self); lia.
Qed.

Lemma update_current_position_in_range_witness :
  let self := sample_cover.shutter [("value", VStr "AAAA")] [("value", VInt 30)] true in
  outcome_of (get_value "signal" "state" (shutter_base self)) = Ok (VStr "AAAA") /\
  outcome_of (get_value "signal" "position_set" (shutter_base self)) = Ok (VInt 30) /\
  base64.b64decode (VStr "AAAA") = Ok [0; 0; 0] /\
  0 <= 30 <= 100 /\
  exists q, _current_position (state_of (update_current_position self)) = VInt q /\
            0 <= q <= 100.
Proof.
  intros self. do 3 (split; [reflexivity|]). split; [lia|].
  destruct (update_current_position_in_range self (VStr "AAAA") [0; 0; 0] 30
              eq_refl eq_refl eq_refl ltac:(lia)) as (self1 & evs & q & Hrun & Hq & Hr).
  exists q. rewrite Hrun. split; [exact Hq|exact Hr].
Defined.

(** ** Upserts into a snapshot cache *)

Section Upserts.

Variable key : pyval -> result pykey.
Hypothesis key_record : forall x k, key x = Ok k -> x <> VNone.

Implicit Types (m : gmap pykey pyval) (items : list pyval) (k : pykey).

(** After a fold of upserts a key is bound to an entry that carries it, or
    no entry carries it and its binding is the old one. *)
Lemma upsert_by_key m x k : key x = Ok k -> upsert_by key m x = <[k := x]> m.
Proof. unfold upsert_by. intros ->. reflexivity. Qed.

Lemma upsert_by_none m x e : key x = Raise e -> upsert_by key m x = m.
Proof. unfold upsert_by. intros ->. reflexivity. Qed.

Lemma fold_upsert_by_lookup items : forall m k,
  (exists x, In x items /\ key x = Ok k /\ foldl (upsert_by key) m items !! k = Some x) \/
  ((forall x, In x items -> key x <> Ok k) /\ foldl (upsert_by key) m items !! k = m !! k).
Proof.
  induction items as [|x0 items IH]; intros m k.
  - right. split; [intros x []|reflexivity].
  - cbn [foldl]. destruct (IH (upsert_by key m x0) k) as [(x & Hin & Hk & Hl)|[Hno Hl]].
    + left. exists x. split; [right; exact Hin|]. split; assumption.
    + destruct (key x0) as [k0|e] eqn:Hk0.
      * rewrite (upsert_by_key m x0 k0 Hk0) in Hl |- *.
        destruct (decide (k0 = k)) as [->|Hne].
        -- left. exists x0. split; [left; reflexivity|]. split; [exact Hk0|].
           rewrite Hl. apply lookup_insert_eq.
        -- right. split.
           ++ intros x [<-|Hin]; [congruence|exact (Hno x Hin)].
           ++ rewrite Hl. apply lookup_insert_ne, Hne.
      * rewrite (upsert_by_none m x0 e Hk0) in Hl |- *. right. split; [|exact Hl].
        intros x [<-|Hin]; [congruence|exact (Hno x Hin)].
Qed.

Lemma fold_upsert_by_dom items : forall m,
  dom m ⊆ dom (foldl (upsert_by key) m items).
Proof.
  induction items as [|x0 items IH]; intros m; [reflexivity|].
  cbn [foldl]. etransitivity; [|apply IH].
  unfold upsert_by. destruct (key x0); [|reflexivity].
  rewrite dom_insert_L. apply union_subseteq_r.
Qed.

Lemma fold_upsert_by_records items : forall m,
  holds_records m -> holds_records (foldl (upsert_by key) m items).
Proof.
  induction items as [|x0 items IH]; intros m Hm; [exact Hm|].
  cbn [foldl]. apply IH. unfold upsert_by.
  destruct (key x0) as [k|] eqn:Hk; [|exact Hm].
  apply map_Forall_insert_2; [exact (key_record x0 k Hk)|exact Hm].
Qed.

(** The flag that the loops raise on a key that [get] maps to [None]. *)
Lemma fold_new_flag items : forall m nd,
  holds_records m ->
  exists b,
    fold_left (fun acc x =>
                 match key x with
                 | Ok k => (upsert_by key (fst acc) x,
                            if get_is_none (fst acc) k then true else snd acc)
                 | Raise _ => acc
                 end) items (m, nd)
    = (foldl (upsert_by key) m items, b) /\
    (b = true <-> nd = true \/ exists x, In x items /\ unbound_in key m x).
Proof.
  induction items as [|x0 items IH]; intros m nd Hm.
  - exists nd. split; [reflexivity|]. split; [tauto|]. intros [H|(x & [] & _)]; exact H.
  - cbn [fold_left foldl]. destruct (key x0) as [k0|e] eqn:Hk0; cbn [fst snd].
    + rewrite (upsert_by_key m x0 k0 Hk0).
      destruct (IH (<[k0 := x0]> m) (if get_is_none m k0 then true else nd))
        as (b & Hrun & Hb).
      { apply map_Forall_insert_2; [exact (key_record x0 k0 Hk0)|exact Hm]. }
      exists b. split; [exact Hrun|]. rewrite Hb. clear Hrun Hb.
      assert (Hnone : get_is_none m k0 = true <-> m !! k0 = None).
      { unfold get_is_none. destruct (m !! k0) as [v|] eqn:Hv; [|tauto].
        split; [|discriminate]. intros Hv'. destruct v; try discriminate.
        destruct (Hm k0 VNone Hv eq_refl). }
      split.
      * intros [Hnd|(x & Hin & k & Hk & Hl)].
        -- destruct (get_is_none m k0) eqn:Hg.
           ++ right. exists x0. split; [left; reflexivity|]. exists k0. split; [exact Hk0|tauto].
           ++ left. exact Hnd.
        -- right. exists x. split; [right; exact Hin|]. exists k. split; [exact Hk|].
           rewrite lookup_insert in Hl. case_decide; [discriminate|exact Hl].
      * intros [Hnd|(x & [<-|Hin] & k & Hk & Hl)].
        -- left. rewrite Hnd. destruct (get_is_none m k0); reflexivity.
        -- left. assert (k = k0) as -> by congruence.
           apply Hnone in Hl. rewrite Hl. reflexivity.
        -- destruct (decide (k0 = k)) as [->|Hne].
           ++ left. apply Hnone in Hl. rewrite Hl. reflexivity.
           ++ right. exists x. split; [exact Hin|]. exists k. split; [exact Hk|].
              rewrite lookup_insert_ne by exact Hne. exact Hl.
    + rewrite (upsert_by_none m x0 e Hk0).
      destruct (IH m nd Hm) as (b & Hrun & Hb).
      exists b. split; [exact Hrun|]. rewrite Hb. split.
      * intros [Hnd|(x & Hin & Hx)]; [left; exact Hnd|].
        right. exists x. split; [right; exact Hin|exact Hx].
      * intros [Hnd|(x & [<-|Hin] & Hx)]; [left; exact Hnd| |].
        -- destruct Hx as (k & Hk & _). congruence.
        -- right. exists x. split; assumption.
Qed.

End Upserts.

(** ** What a poll keeps *)

Lemma device_key_is_record (d : pyval) (k : pykey) : device_key d = Ok k -> d <> VNone.
Proof. intros H ->. discriminate. Qed.

Lemma stored_key_is_record (n : pyval) (k : pykey) : stored_key n = Ok k -> n <> VNone.
Proof. intros H ->. discriminate. Qed.

Lemma set_devices_fold_cons (key : pyval -> result pykey) (d : pyval) (k : pykey)
    (done : list pyval) (self : FreeboxRouter) :
  key d = Ok k ->
  set_devices (fun m => foldl (upsert_by key) m done) (set_devices (insert k d) self)
  = set_devices (fun m => foldl (upsert_by key) m (d :: done)) self.
Proof.
  intros Hk. unfold set_devices. cbn [devices name mac _attrs _use_home home_devices
    _warning_once foldl]. rewrite (upsert_by_key key _ d k Hk). reflexivity.
Qed.

Lemma set_home_devices_fold_cons (key : pyval -> result pykey) (n : pyval) (k : pykey)
    (done : list pyval) (self : FreeboxRouter) :
  key n = Ok k ->
  set_home_devices (fun m => foldl (upsert_by key) m done)
    (set_home_devices (insert k n) self)
  = set_home_devices (fun m => foldl (upsert_by key) m (n :: done)) self.
Proof.
  intros Hk. unfold set_home_devices. cbn [devices name mac _attrs _use_home home_devices
    _warning_once foldl]. rewrite (upsert_by_key key _ n k Hk). reflexivity.
Qed.

Lemma set_home_devices_fold_skip (key : pyval -> result pykey) (n : pyval) (e : exn)
    (done : list pyval) (self : FreeboxRouter) :
  key n = Raise e ->
  set_home_devices (fun m => foldl (upsert_by key) m done) self
  = set_home_devices (fun m => foldl (upsert_by key) m (n :: done)) self.
Proof.
  intros Hk. unfold set_home_devices. cbn [foldl].
  rewrite (upsert_by_none key _ n e Hk). reflexivity.
Qed.

(** Whatever the entries, the device loop upserts a prefix of them, in
    order, and stops at the first entry without a usable key. *)
Lemma device_trackers_loop_prefix (items : list pyval) : forall nd self,
  exists done rest r,
    items = done ++ rest /\
    device_trackers_loop items nd self
    = (set_devices (fun m => foldl (upsert_by device_key) m done) self, [], r) /\
    (Forall (fun d => is_ok (device_key d) = true) items -> rest = [] /\ is_ok r = true).
Proof.
  induction items as [|d items IH]; intros nd self.
  - exists [], [], (Ok nd). split; [reflexivity|]. split; [destruct self; reflexivity|].
    intros _. split; reflexivity.
  - cbn [device_trackers_loop]. unfold bind at 1, lift at 1.
    destruct (getitem d "l2ident") as [l2|e] eqn:Hl2.
    2:{ exists [], (d :: items), (Raise e). split; [reflexivity|].
        split; [destruct self; reflexivity|].
        intros Hwf. inversion Hwf as [|? ? Hd _]; subst.
        unfold device_key in Hd. rewrite Hl2 in Hd. discriminate. }
    unfold bind at 1, lift at 1.
    destruct (getitem l2 "id") as [i|e] eqn:Hid.
    2:{ exists [], (d :: items), (Raise e). split; [reflexivity|].
        split; [destruct self; reflexivity|].
        intros Hwf. inversion Hwf as [|? ? Hd _]; subst.
        unfold device_key in Hd. rewrite Hl2 in Hd. cbn in Hd. rewrite Hid in Hd.
        discriminate. }
    unfold bind at 1, lift at 1.
    destruct (hash_key i) as [k|e] eqn:Hk.
    2:{ exists [], (d :: items), (Raise e). split; [reflexivity|].
        split; [destruct self; reflexivity|].
        intros Hwf. inversion Hwf as [|? ? Hd _]; subst.
        unfold device_key in Hd. rewrite Hl2 in Hd. cbn in Hd. rewrite Hid in Hd.
        cbn in Hd. rewrite Hk in Hd. discriminate. }
    assert (Hkey : device_key d = Ok k).
    { unfold device_key. rewrite Hl2. cbn. rewrite Hid. cbn. exact Hk. }
    unfold bind at 1, get_self at 1. unfold bind at 1, modify at 1.
    destruct (IH (if get_is_none (devices self) k then true else nd)
                 (set_devices (insert k d) self)) as (done & rest & r & Hsplit & Hrun & Hall).
    rewrite Hrun. exists (d :: done), rest, r.
    split; [rewrite Hsplit; reflexivity|]. split.
    + rewrite (set_devices_fold_cons device_key d k done self Hkey). reflexivity.
    + intros Hwf. inversion Hwf; subst. auto.
Qed.

(** The same for the home-device loop, which also logs but dispatches
    nothing. *)
Lemma home_devices_loop_prefix (items : list pyval) : forall nd self,
  exists done rest ev r,
    items = done ++ rest /\
    home_devices_loop items nd self
    = (set_home_devices (fun m => foldl (upsert_by stored_key) m done) self, ev, r) /\
    dispatched ev = [] /\
    (Forall (fun n => is_home_node n = true) items ->
       rest = [] /\
       r = Ok (snd (fold_left
                      (fun acc x =>
                         match stored_key x with
                         | Ok k => (upsert_by stored_key (fst acc) x,
                                    if get_is_none (fst acc) k then true else snd acc)
                         | Raise _ => acc
                         end) items (home_devices self, nd)))).
Proof.
  induction items as [|n items IH]; intros nd self.
  - exists [], [], [], (Ok nd). split; [reflexivity|]. split; [destruct self; reflexivity|].
    split; [reflexivity|]. intros _. split; reflexivity.
  - destruct (home_node_cases n) as [[Hc Hs]|[[Hs [k Hk]]|Hbad]].
    + rewrite (home_devices_loop_skip n items nd self Hc Hs).
      destruct (IH nd self) as (done & rest & ev & r & Hsplit & Hrun & Hdis & Hall).
      rewrite Hrun.
      assert (Hkey : stored_key n = Raise KeyError) by (unfold stored_key; rewrite Hs; reflexivity).
      exists (n :: done), rest. eexists _, r.
      split; [rewrite Hsplit; reflexivity|]. split; [|split].
      * rewrite (set_home_devices_fold_skip stored_key n _ done self Hkey). reflexivity.
      * unfold dispatched in *. rewrite omap_app, Hdis.
        destruct (_warning_once self); reflexivity.
      * intros Hwf. inversion Hwf; subst. cbn [fold_left]. rewrite Hkey. auto.
    + rewrite (home_devices_loop_upsert n items nd self k Hs Hk).
      destruct (IH (if get_is_none (home_devices self) k then true else nd)
                   (set_home_devices (insert k n) self))
        as (done & rest & ev & r & Hsplit & Hrun & Hdis & Hall).
      rewrite Hrun.
      assert (Hkey : stored_key n = Ok k) by (unfold stored_key; rewrite Hs; exact Hk).
      exists (n :: done), rest, ev, r.
      split; [rewrite Hsplit; reflexivity|]. split; [|split; [exact Hdis|]].
      * rewrite (set_home_devices_fold_cons stored_key n k done self Hkey). reflexivity.
      * intros Hwf. inversion Hwf; subst. cbn [fold_left fst snd]. rewrite Hkey.
        rewrite (upsert_by_key stored_key _ n k Hkey). auto.
    + destruct (home_devices_loop_raise n items nd self Hbad) as [e ->].
      exists [], (n :: items), [], (Raise e).
      split; [reflexivity|]. split; [destruct self; reflexivity|]. split; [reflexivity|].
      intros Hwf. inversion Hwf; subst. congruence.
Qed.

Lemma update_device_trackers_shape (api : Freepybox) (self : FreeboxRouter) :
  exists done evs r,
    update_device_trackers api self
    = (set_devices (fun m => foldl (upsert_by device_key) m done) self, evs, r) /\
    (r <> Ok tt -> dispatched evs = []).
Proof.
  unfold update_device_trackers, await, bind at 1 2. unfold emit at 1, lift at 1.
  destruct (lan_get_hosts_list api) as [v|e].
  2:{ exists [], [Call call_lan_get_hosts_list], (Raise e).
      split; [destruct self; reflexivity|]. reflexivity. }
  unfold bind at 1, get_self at 1. unfold bind at 1, lift at 1.
  destruct (list_append v (self_record self)) as [w|e] eqn:Happ.
  2:{ exists [], [Call call_lan_get_hosts_list], (Raise e).
      split; [destruct self; reflexivity|]. reflexivity. }
  unfold bind at 1, lift at 1.
  destruct (py_iter w) as [items|e].
  2:{ exists [], [Call call_lan_get_hosts_list], (Raise e).
      split; [destruct self; reflexivity|]. reflexivity. }
  unfold bind at 1.
  destruct (device_trackers_loop_prefix items false self) as (done & rest & r & _ & -> & _).
  exists done. destruct r as [nd|e].
  - unfold bind, async_dispatcher_send, emit, ret.
    destruct nd; eexists _, _; (split; [reflexivity|]); intros H; destruct (H eq_refl).
  - eexists _, _. split; [reflexivity|]. reflexivity.
Qed.

Lemma update_home_devices_shape (api : Freepybox) (self : FreeboxRouter) :
  exists done self1 evs r,
    update_home_devices api self = (self1, evs, r) /\
    home_devices self1 = foldl (upsert_by stored_key) (home_devices self) done /\
    devices self1 = devices self /\
    (r <> Ok tt -> dispatched evs = []).
Proof.
  unfold update_home_devices, bind at 1.
  unfold try_except, await, bind at 1 2, emit, lift at 1, ret at 1.
  destruct (home_get_home_nodes api) as [v|e].
  - cbn [exn_eqb app]. unfold bind at 1, lift at 1.
    destruct (py_iter v) as [items|e].
    2:{ exists []. eexists _, _, _. split; [reflexivity|]. repeat split; reflexivity. }
    unfold bind at 1.
    destruct (home_devices_loop_prefix items false self)
      as (done & rest & ev & r & _ & -> & Hdis & _).
    exists done. destruct r as [nd|e].
    + unfold bind, modify, async_dispatcher_send, emit, ret.
      destruct nd; eexists _, _, _; (split; [reflexivity|]);
        (split; [reflexivity|]); (split; [reflexivity|]); intros H; destruct (H eq_refl).
    + eexists _, _, _. split; [reflexivity|]. split; [reflexivity|]. split; [reflexivity|].
      intros _. cbn. exact Hdis.
  - exists []. destruct e; cbn; eexists _, _, _; (split; [reflexivity|]);
      repeat split; reflexivity.
Qed.

(** X3. No poll ever removes a record: every key bound in a snapshot cache
    before a run is bound after it, whatever the client answers; and each
    poll leaves the other cache alone. *)
Theorem polls_never_remove (api : Freepybox) (self : FreeboxRouter) :
  dom (devices self) ⊆ dom (devices (state_of (update_device_trackers api self))) /\
  home_devices (state_of (update_device_trackers api self)) = home_devices self /\
  dom (home_devices self) ⊆ dom (home_devices (state_of (update_home_devices api self))) /\
  devices (state_of (update_home_devices api self)) = devices self.
Proof.
  destruct (update_device_trackers_shape api self) as (done & evs & r & -> & _).
  destruct (update_home_devices_shape api self) as (done' & s1 & evs' & r' & -> & Hh & Hd & _).
  cbn [state_of fst devices home_devices set_devices].
  split; [apply fold_upsert_by_dom|]. split; [reflexivity|].
  split; [rewrite Hh; apply fold_upsert_by_dom|exact Hd].
Qed.

(** X4. A poll that raises notifies nobody, although the entries met before the
    failure have been upserted. *)
Theorem failed_poll_never_notifies (api : Freepybox) (self : FreeboxRouter) :
  (outcome_of (update_device_trackers api self) <> Ok tt ->
   dispatched (events_of (update_device_trackers api self)) = []) /\
  (outcome_of (update_home_devices api self) <> Ok tt ->
   dispatched (events_of (update_home_devices api self)) = []).
Proof.
  destruct (update_device_trackers_shape api self) as (done & evs & r & -> & Hd).
  destruct (update_home_devices_shape api self) as (done' & s1 & evs' & r' & -> & _ & _ & Hh).
  split; [exact Hd|exact Hh].
Qed.

(** A host list cut short by an entry without [l2ident]: the host before it
    is in the cache, and nothing was dispatched. *)
Example update_device_trackers_partial :
  let api := {| lan_get_hosts_list := Ok (VList [sample.host "A"; VDict []; sample.host "B"]);
                home_get_home_nodes := Ok (VList []);
                home_get_home_endpoint_value := fun _ _ => Ok VNone;
                home_set_home_endpoint_value := fun _ _ _ => Ok VNone |} in
  let run := update_device_trackers api sample.box in
  outcome_of run = Raise KeyError /\
  devices (state_of run) !! KStr "A" = Some (sample.host "A") /\
  devices (state_of run) !! KStr "B" = None /\
  dispatched (events_of run) = [].
Proof. vm_compute. repeat split; reflexivity. Qed.

(** X5. One run of [update_home_devices] on a fetched node list: every key ends
    bound to a supported node of the list that carries it, or no supported
    node carries it and its binding is the old one; "home device update" is
    dispatched once, followed by "home device new" once exactly when a
    supported node's id was unbound before (unsupported nodes never count);
    a second run on the same list dispatches "home device update" only. *)
Theorem update_home_devices_cycle (api : Freepybox) (self : FreeboxRouter)
    (nodes : list pyval) :
  home_get_home_nodes api = Ok (VList nodes) ->
  Forall (fun n => is_home_node n = true) nodes ->
  holds_records (home_devices self) ->
  exists self1 evs1,
    update_home_devices api self = (self1, evs1, Ok tt) /\
    (forall k,
       (exists n, In n nodes /\ supported n = true /\ node_key n = Ok k /\
                  home_devices self1 !! k = Some n) \/
       ((forall n, In n nodes -> supported n = true -> node_key n <> Ok k) /\
        home_devices self1 !! k = home_devices self !! k)) /\
    ((exists n, In n nodes /\ unbound_in stored_key (home_devices self) n) ->
       dispatched evs1 = [signal_home_device_update; signal_home_device_new]) /\
    (~ (exists n, In n nodes /\ unbound_in stored_key (home_devices self) n) ->
       dispatched evs1 = [signal_home_device_update]) /\
    forall api2, home_get_home_nodes api2 = Ok (VList nodes) ->
      exists self2 evs2,
        update_home_devices api2 self1 = (self2, evs2, Ok tt) /\
        size (home_devices self2) = size (home_devices self1) /\
        dispatched evs2 = [signal_home_device_update].
Proof.
  intros Hapi Hwf Hrec.
  assert (Hrun : forall (api' : Freepybox) (s : FreeboxRouter),
            home_get_home_nodes api' = Ok (VList nodes) ->
            holds_records (home_devices s) ->
            exists s1 evs (b : bool),
              update_home_devices api' s = (s1, evs, Ok tt) /\
              home_devices s1 = foldl (upsert_by stored_key) (home_devices s) nodes /\
              dispatched evs
              = signal_home_device_update :: (if b then [signal_home_device_new] else []) /\
              (b = true <-> exists n, In n nodes /\ unbound_in stored_key (home_devices s) n)).
  { intros api' s Hapi' Hs. rewrite (update_home_devices_fetched api' s nodes Hapi').
    destruct (home_devices_loop_prefix nodes false s)
      as (done & rest & ev & r & Hsplit & -> & Hdis & Hall).
    destruct (Hall Hwf) as [-> ->]. rewrite app_nil_r in Hsplit. subst done.
    destruct (fold_new_flag stored_key stored_key_is_record nodes (home_devices s) false Hs)
      as (b & -> & Hb).
    cbn [snd]. eexists _, _, b. split; [reflexivity|]. split; [reflexivity|]. split.
    - cbn. unfold dispatched in *. rewrite omap_app, Hdis. destruct b; reflexivity.
    - rewrite Hb. split; [intros [?|?]; [discriminate|assumption]|auto]. }
  destruct (Hrun api self Hapi Hrec) as (self1 & evs1 & b & Hrun1 & Hcache & Hdisp & Hb).
  exists self1, evs1. split; [exact Hrun1|].
  assert (Hlook : forall m k,
            (exists n, In n nodes /\ supported n = true /\ node_key n = Ok k /\
                       foldl (upsert_by stored_key) m nodes !! k = Some n) \/
            ((forall n, In n nodes -> supported n = true -> node_key n <> Ok k) /\
             foldl (upsert_by stored_key) m nodes !! k = m !! k)).
  { intros m k.
    destruct (fold_upsert_by_lookup stored_key nodes m k) as [(n & Hin & Hk & Hl)|[Hno Hl]].
    - left. exists n. unfold stored_key in Hk.
      destruct (supported n) eqn:Hs; [|discriminate]. auto.
    - right. split; [|exact Hl]. intros n Hin Hs Hk. apply (Hno n Hin).
      unfold stored_key. rewrite Hs. exact Hk. }
  split; [intros k; rewrite Hcache; apply Hlook|].
  split; [intros Hnew; rewrite Hdisp; replace b with true; [reflexivity|symmetry; tauto]|].
  split.
  { intros Hnew. rewrite Hdisp. destruct b; [|reflexivity]. destruct Hnew. tauto. }
  intros api2 Hapi2.
  assert (Hrec1 : holds_records (home_devices self1)).
  { rewrite Hcache. apply fold_upsert_by_records; [exact stored_key_is_record|exact Hrec]. }
  destruct (Hrun api2 self1 Hapi2 Hrec1) as (self2 & evs2 & b2 & Hrun2 & Hcache2 & Hdisp2 & Hb2).
  exists self2, evs2. split; [exact Hrun2|].
  assert (Hbound : forall n k, In n nodes -> stored_key n = Ok k ->
                               is_Some (home_devices self1 !! k)).
  { intros n k Hin Hk. rewrite Hcache.
    destruct (fold_upsert_by_lookup stored_key nodes (home_devices self) k)
      as [(n' & _ & _ & Hl)|[Hno _]]; [rewrite Hl; eauto|].
    destruct (Hno n Hin Hk). }
  split.
  - rewrite <- !size_dom. f_equal. rewrite Hcache2. apply (anti_symm (subseteq (A:=gset pykey))).
    + clear Hrun Hlook Hrun2 Hcache2 Hb2 Hdisp2.
      assert (Hsub : forall items m,
                (forall n k, In n items -> stored_key n = Ok k -> is_Some (m !! k)) ->
                dom (foldl (upsert_by stored_key) m items) ⊆ dom m).
      { induction items as [|n items IH]; intros m Hm; [reflexivity|].
        cbn [foldl]. destruct (stored_key n) as [k|e] eqn:Hk.
        - rewrite (upsert_by_key stored_key m n k Hk). etransitivity.
          + apply IH. intros n' k' Hin' Hk'. rewrite lookup_insert. case_decide; [eauto|].
            apply (Hm n' k'); [right; exact Hin'|exact Hk'].
          + rewrite dom_insert_L. apply union_least; [|reflexivity].
            apply singleton_subseteq_l, elem_of_dom, (Hm n k); [left; reflexivity|exact Hk].
        - rewrite (upsert_by_none stored_key m n e Hk). apply IH.
          intros n' k' Hin' Hk'. apply (Hm n' k'); [right; exact Hin'|exact Hk']. }
      apply Hsub, Hbound.
    + apply fold_upsert_by_dom.
  - rewrite Hdisp2. destruct b2; [|reflexivity].
    destruct Hb2 as [Hb2 _]. destruct (Hb2 eq_refl) as (n & Hin & k & Hk & Hnone).
    destruct (Hbound n k Hin Hk) as [v Hv]. congruence.
Qed.

Lemma update_home_devices_cycle_witness :
  let nodes := [sample.home_node 1 "light" []; sample.home_node 2 "pir" []] in
  let api := sample.up nodes VNone in
  home_get_home_nodes api = Ok (VList nodes) /\
  Forall (fun n => is_home_node n = true) nodes /\
  holds_records (home_devices sample.box) /\
  exists self1 evs1,
    update_home_devices api sample.box = (self1, evs1, Ok tt) /\
    home_devices self1 !! KInt 2 = Some (sample.home_node 2 "pir" []) /\
    home_devices self1 !! KInt 1 = None /\
    dispatched evs1 = [signal_home_device_update; signal_home_device_new].
Proof.
  intros nodes api.
  assert (H2 : Forall (fun n => is_home_node n = true) nodes) by (repeat constructor).
  assert (H3 : holds_records (home_devices sample.box)) by apply map_Forall_empty.
  split; [reflexivity|]. split; [exact H2|]. split; [exact H3|].
  destruct (update_home_devices_cycle api sample.box nodes eq_refl H2 H3)
    as (self1 & evs1 & Hrun & Hlook & Hnew & _).
  exists self1, evs1. split; [exact Hrun|]. split; [|split].
  - destruct (Hlook (KInt 2)) as [(n & Hin & _ & Hk & Hl)|[Hno _]].
    + rewrite Hl. f_equal.
      destruct Hin as [<-|[<-|[]]]; [discriminate Hk|reflexivity].
    + destruct (Hno (sample.home_node 2 "pir" [])); [right; left; reflexivity|reflexivity..].
  - destruct (Hlook (KInt 1)) as [(n & Hin & Hs & Hk & _)|[_ Hl]].
    + destruct Hin as [<-|[<-|[]]]; [discriminate Hs|discriminate Hk].
    + rewrite Hl. reflexivity.
  - apply Hnew. exists (sample.home_node 2 "pir" []). split; [right; left; reflexivity|].
    exists (KInt 2). split; reflexivity.
Defined.

(** ** Reading through the remote client *)

(** X6. With a resolved command, [get_home_endpoint_value] sends one read for
    its node and leaves the entity alone.  It returns the ["value"] field of
    the answer; of the client's exceptions only the time-out is caught, any
    other reaches the caller. *)
Theorem get_home_endpoint_value_reads (api : Freepybox) (self : FreeboxHomeBaseClass)
    (command_id : pyval) :
  command_id <> VALUE_NOT_SET ->
  exists evs r,
    get_home_endpoint_value api command_id self = (self, evs, r) /\
    calls evs = [call_home_get_home_endpoint_value (_id self) command_id] /\
    (forall response v,
       home_get_home_endpoint_value api (_id self) command_id = Ok response ->
       getitem response "value" = Ok v -> r = Ok v) /\
    (forall e,
       home_get_home_endpoint_value api (_id self) command_id = Raise e ->
       e <> TimeoutError -> r = Raise e).
Proof.
  intros Hcmd.
  assert (Hn : is_none command_id = false)
    by (destruct command_id; try reflexivity; destruct (Hcmd eq_refl)).
  unfold get_home_endpoint_value. rewrite Hn.
  unfold bind, get_self, try_except, await, bind, emit, lift, ret, log. cbn beta.
  destruct (home_get_home_endpoint_value api (_id self) command_id) as [response|e].
  - cbn [exn_eqb app]. eexists _, _. split; [reflexivity|]. split; [reflexivity|].
    split; [|intros e He; discriminate].
    intros response' v [= <-] Hv. destruct response as [| | | | |d]; try discriminate.
    cbn in *. destruct (dict_lookup "value" d); [congruence|discriminate].
  - destruct e; cbn; eexists _, _; (split; [reflexivity|]); (split; [reflexivity|]);
      (split; [intros response v Hr; discriminate|]);
      intros e [= <-] Hne; first [reflexivity|destruct (Hne eq_refl)].
Qed.

Lemma get_home_endpoint_value_reads_witness :
  let api := sample.up [] (VDict [("value", VInt 42)]) in
  VInt 3 <> VALUE_NOT_SET /\
  outcome_of (get_home_endpoint_value api (VInt 3) sample.entity) = Ok (VInt 42).
Proof.
  intros api. assert (H : VInt 3 <> VALUE_NOT_SET) by discriminate.
  split; [exact H|].
  destruct (get_home_endpoint_value_reads api sample.entity (VInt 3) H)
    as (evs & r & Hrun & _ & Hval & _).
  rewrite Hrun. apply (Hval (VDict [("value", VInt 42)])); reflexivity.
Defined.

(** ** The commands of the positional shutter *)

Section ShutterCommands.

Import shutter_commands.

(** X7. Opening is setting position 100 and closing is setting position 0: the
    same request, the same state, the same outcome. *)
Theorem shutter_open_close_are_set_position (api : Freepybox)
    (self : FreeboxShutterEntity) :
  async_open_cover api self
  = async_set_cover_position api (VDict [(ATTR_POSITION, VInt 100)]) self /\
  async_close_cover api self
  = async_set_cover_position api (VDict [(ATTR_POSITION, VInt 0)]) self.
Proof.
  unfold async_open_cover, async_close_cover, async_set_cover_position.
  unfold bind, get_self, lift, modify, emit. cbn beta.
  change (100 - 100) with 0. change (100 - 0) with 100.
  destruct (_invert_position (shutter self)); cbn [getitem dict_lookup ATTR_POSITION
    String.eqb Ascii.eqb Bool.eqb py_rsub as_int rbind app];
    change (100 - 100) with 0; change (100 - 0) with 100;
    split;
    match goal with
    | |- context [inherited ?m self] => destruct (inherited m self) as [[s1 ev1] [ack|e]]
    end; reflexivity.
Qed.

(** The three ways a set request ends. *)
Lemma set_home_endpoint_value_cases (api : Freepybox) (command_id value : pyval)
    (self : FreeboxHomeBaseClass) :
  set_home_endpoint_value api command_id value self
  = if is_none command_id then (self, [Log ERROR UnableToSet], Ok false)
    else match home_set_home_endpoint_value api (_id self) command_id value with
         | Ok _ => (self, [Call (call_home_set_home_endpoint_value (_id self) command_id value)],
                    Ok true)
         | Raise e => (self, [Call (call_home_set_home_endpoint_value (_id self) command_id value)],
                       Raise e)
         end.
Proof.
  unfold set_home_endpoint_value. destruct (is_none command_id); [reflexivity|].
  unfold bind, get_self, await, emit, lift, ret. cbn beta.
  destruct (home_set_home_endpoint_value api (_id self) command_id value); reflexivity.
Qed.



End ShutterCommands.

(** ** The disks *)

Section Disks.

Import disks.

Lemma disk_key_is_record (d : pyval) (k : pykey) : disk_key d = Ok k -> d <> VNone.
Proof. intros H ->. discriminate. Qed.

Lemma disks_loop_fold (items : list pyval) : forall cache,
  Forall (fun d => is_ok (disk_key d) = true) items ->
  disks_loop items cache = (foldl (upsert_by disk_key) cache items, [], Ok tt).
Proof.
  induction items as [|d items IH]; intros cache Hwf; [reflexivity|].
  inversion Hwf as [|? ? Hd Hwf']; subst.
  cbn [disks_loop foldl]. unfold disk_key in Hd.
  destruct (getitem d "id") as [i|] eqn:Hid; [|discriminate]. cbn [rbind] in Hd.
  destruct (hash_key i) as [k|] eqn:Hk; [|discriminate].
  assert (Hkey : disk_key d = Ok k) by (unfold disk_key; rewrite Hid; exact Hk).
  rewrite (upsert_by_key disk_key cache d k Hkey).
  unfold bind, lift, modify. cbn beta. rewrite Hk. rewrite (IH _ Hwf'). reflexivity.
Qed.

(** X9. [_update_disks_sensors] takes [None] (the answer at the first request)
    and an empty list alike: nothing changes and nothing is raised.  On a
    list of disks, every key ends bound to a disk of the list that carries
    it, or no disk carries it and its binding is the old one; no disk is
    ever removed. *)
Theorem update_disks_sensors_upserts (cache : gmap pykey pyval) (fbx_disks : list pyval) :
  Forall (fun d => is_ok (disk_key d) = true) fbx_disks ->
  _update_disks_sensors (Ok VNone) cache = (cache, [], Ok tt) /\
  _update_disks_sensors (Ok (VList [])) cache = (cache, [], Ok tt) /\
  exists cache1,
    _update_disks_sensors (Ok (VList fbx_disks)) cache = (cache1, [], Ok tt) /\
    dom cache ⊆ dom cache1 /\
    forall k,
      (exists d, In d fbx_disks /\ disk_key d = Ok k /\ cache1 !! k = Some d) \/
      ((forall d, In d fbx_disks -> disk_key d <> Ok k) /\ cache1 !! k = cache !! k).
Proof.
  intros Hwf. split; [reflexivity|]. split; [reflexivity|].
  exists (foldl (upsert_by disk_key) cache fbx_disks). split.
  - unfold _update_disks_sensors, bind, lift. cbn beta.
    destruct fbx_disks as [|d rest]; [reflexivity|].
    cbn [truthy negb py_iter]. rewrite bool_decide_eq_false_2 by discriminate.
    cbn [negb py_iter]. rewrite (disks_loop_fold _ _ Hwf). reflexivity.
  - split; [apply fold_upsert_by_dom|apply fold_upsert_by_lookup].
Qed.

Lemma update_disks_sensors_upserts_witness :
  let disk := VDict [("id", VInt 1000); ("model", VStr "SSD")] in
  Forall (fun d => is_ok (disk_key d) = true) [disk] /\
  exists cache1,
    _update_disks_sensors (Ok (VList [disk])) ∅ = (cache1, [], Ok tt) /\
    cache1 !! KInt 1000 = Some disk.
Proof.
  intros disk.
  assert (H : Forall (fun d => is_ok (disk_key d) = true) [disk]) by (repeat constructor).
  split; [exact H|].
  destruct (update_disks_sensors_upserts ∅ [disk] H) as (_ & _ & cache1 & Hrun & _ & Hlook).
  exists cache1. split; [exact Hrun|].
  destruct (Hlook (KInt 1000)) as [(d & [<-|[]] & _ & Hl)|[Hno _]]; [exact Hl|].
  destruct (Hno disk (or_introl eq_refl) eq_refl).
Defined.

End Disks.

(** ** Writing a value and reading it back *)

Section WriteValue.

Import base_class_write.

Lemma dict_lookup_set_eq (k : string) (v : pyval) (d : list (string * pyval)) :
  dict_lookup k (dict_set k v d) = Some v.
Proof.
  induction d as [|[k' v'] d IH]; cbn.
  - rewrite String.eqb_refl. reflexivity.
  - destruct (String.eqb k' k) eqn:E; cbn; rewrite E; [reflexivity|exact IH].
Qed.

Lemma dict_lookup_set_ne (k k0 : string) (v : pyval) (d : list (string * pyval)) :
  k0 <> k -> dict_lookup k0 (dict_set k v d) = dict_lookup k0 d.
Proof.
  intros Hne. induction d as [|[k' v'] d IH]; cbn.
  - destruct (String.eqb k k0) eqn:E; [|reflexivity].
    apply String.eqb_eq in E. congruence.
  - destruct (String.eqb k' k) eqn:E; cbn.
    + apply String.eqb_eq in E. subst k'.
      destruct (String.eqb k k0) eqn:E0; [|reflexivity].
      apply String.eqb_eq in E0. congruence.
    + destruct (String.eqb k' k0); [reflexivity|exact IH].
Qed.

(** Storing a value in an endpoint changes neither what it matches nor
    whether it is an endpoint. *)
Lemma matches_set_value (ep_type name : string) (v : pyval) (e : list (string * pyval)) :
  matches ep_type name (VDict (dict_set "value" v e)) = matches ep_type name (VDict e).
Proof.
  unfold matches, getitem. rewrite !dict_lookup_set_ne by discriminate. reflexivity.
Qed.

Lemma is_endpoint_set_value (v : pyval) (e : list (string * pyval)) :
  is_endpoint (VDict (dict_set "value" v e)) = is_endpoint (VDict e).
Proof.
  unfold is_endpoint, getitem. rewrite !dict_lookup_set_ne by discriminate. reflexivity.
Qed.

Lemma is_endpoint_dict (x : pyval) :
  is_endpoint x = true -> exists e, x = VDict e.
Proof. destruct x; try discriminate. eauto. Qed.

(** An element matches one pair of kind and name at most. *)
Lemma matches_functional (t n t' n' : string) (x : pyval) :
  matches t n x = true -> matches t' n' x = true -> t' = t /\ n' = n.
Proof.
  unfold matches. destruct (getitem x "name") as [a|]; [|discriminate].
  destruct (getitem x "ep_type") as [b|]; [|discriminate].
  intros H1 H2. apply andb_true_iff in H1 as [H1a H1b]. apply andb_true_iff in H2 as [H2a H2b].
  destruct a; try discriminate. destruct b; try discriminate. unfold py_eq_str in *.
  apply String.eqb_eq in H1a, H1b, H2a, H2b. subst. auto.
Qed.

(** The position found is that of the first matching element. *)
Lemma next_filter_index_first (ep_type name : string) (l : list pyval) :
  Forall (fun x => is_endpoint x = true) l ->
  (next_filter_index ep_type name l = Ok None /\
   List.find (matches ep_type name) l = None) \/
  (exists i x,
     next_filter_index ep_type name l = Ok (Some i) /\
     l !! i = Some x /\ matches ep_type name x = true /\
     List.find (matches ep_type name) l = Some x /\
     forall j y, (j < i)%nat -> l !! j = Some y -> matches ep_type name y = false).
Proof.
  induction 1 as [|x l Hx _ IH].
  - left. split; reflexivity.
  - cbn [next_filter_index List.find]. unfold is_endpoint in Hx.
    destruct (getitem x "name") as [a|] eqn:Ha; [|discriminate].
    destruct (getitem x "ep_type") as [b|] eqn:Hb; [|discriminate].
    cbn [rbind].
    assert (Hmx : matches ep_type name x = py_eq_str a name && py_eq_str b ep_type)
      by (unfold matches; rewrite Ha, Hb; reflexivity).
    destruct (matches ep_type name x) eqn:Hm.
    + symmetry in Hmx. apply andb_true_iff in Hmx as [Hm1 Hm2]. rewrite Hm1, Hm2.
      right. exists 0%nat, x. split; [reflexivity|]. split; [reflexivity|].
      split; [exact Hm|]. split; [reflexivity|]. intros j y Hj. lia.
    + assert (Hstep : (if py_eq_str a name
                       then if py_eq_str b ep_type then Ok (Some 0%nat)
                            else let? r := next_filter_index ep_type name l in Ok (S <$> r)
                       else let? r := next_filter_index ep_type name l in Ok (S <$> r))
                      = (let? r := next_filter_index ep_type name l in Ok (S <$> r))).
      { destruct (py_eq_str a name); [|reflexivity].
        destruct (py_eq_str b ep_type); [discriminate|reflexivity]. }
      rewrite Hstep. clear Hstep.
      destruct IH as [[Hn Hf]|(i & y & Hn & Hl & Hy & Hf & Hbefore)].
      * left. rewrite Hn. split; [reflexivity|exact Hf].
      * right. exists (S i), y. rewrite Hn. split; [reflexivity|]. split; [exact Hl|].
        split; [exact Hy|]. split; [exact Hf|].
        intros j z Hj Hz. destruct j as [|j]; [cbn in Hz; congruence|].
        apply (Hbefore j z); [lia|exact Hz].
Qed.

Lemma find_first (f : pyval -> bool) (l : list pyval) : forall (i : nat) (x : pyval),
  l !! i = Some x -> f x = true ->
  (forall j y, (j < i)%nat -> l !! j = Some y -> f y = false) ->
  List.find f l = Some x.
Proof.
  induction l as [|y l IH]; intros i x Hi Hx Hbefore; [discriminate|].
  destruct i as [|i]; cbn in Hi.
  - injection Hi as ->. cbn. rewrite Hx. reflexivity.
  - cbn. rewrite (Hbefore 0%nat y) by (first [lia|reflexivity]).
    apply (IH i x Hi Hx). intros j z Hj Hz. apply (Hbefore (S j) z); [lia|exact Hz].
Qed.

Lemma find_insert_unmatched (f : pyval -> bool) (l : list pyval) :
  forall (i : nat) (x x' : pyval),
    l !! i = Some x -> f x = false -> f x' = false ->
    List.find f (<[i := x']> l) = List.find f l.
Proof.
  induction l as [|y l IH]; intros i x x' Hi Hx Hx'; [reflexivity|].
  destruct i as [|i]; cbn in Hi |- *.
  - injection Hi as ->. rewrite Hx, Hx'. reflexivity.
  - destruct (f y); [reflexivity|]. apply (IH i x x' Hi Hx Hx').
Qed.

End WriteValue.

Section StoredValue.

Import base_class_write.

Variables (base : FreeboxHomeBaseClass) (l : list pyval) (ep_type name : string).
Variables (i : nat) (e : list (string * pyval)) (value : pyval).
Hypothesis Hshow : getitem (_node base) "show_endpoints" = Ok (VList l).
Hypothesis Hwf : Forall (fun x => is_endpoint x = true) l.
Hypothesis Hat : l !! i = Some (VDict e).
Hypothesis Hmatch : matches ep_type name (VDict e) = true.
Hypothesis Hbefore :
  forall j y, (j < i)%nat -> l !! j = Some y -> matches ep_type name y = false.

Let stored : list pyval := <[i := VDict (dict_set "value" value e)]> l.
Let base' : FreeboxHomeBaseClass :=
  set_node (store_endpoint_value i value (_node base)) base.

Lemma store_show_endpoints :
  getitem (_node base') "show_endpoints" = Ok (VList stored).
Proof.
  unfold base', set_node, store_endpoint_value. cbn [_node].
  pose proof Hshow as H.
  destruct (_node base) as [| | | | |d] eqn:Hn; try discriminate H.
  rewrite H, Hat. cbn [setitem getitem]. rewrite dict_lookup_set_eq. reflexivity.
Qed.

Lemma stored_endpoints : Forall (fun x => is_endpoint x = true) stored.
Proof.
  unfold stored. apply Forall_insert; [exact Hwf|].
  rewrite is_endpoint_set_value. rewrite Forall_forall in Hwf.
  apply Hwf, list_elem_of_lookup. eauto.
Qed.

(** The value written is the value read back. *)
Lemma get_value_stored :
  get_value ep_type name base' = (base', [], Ok value).
Proof.
  rewrite (get_value_run base' stored ep_type name store_show_endpoints stored_endpoints).
  assert (Hi : (i < length l)%nat) by (apply lookup_lt_is_Some; eauto).
  rewrite (find_first (matches ep_type name) stored i (VDict (dict_set "value" value e))).
  - cbn. rewrite dict_lookup_set_eq. reflexivity.
  - unfold stored. apply list_lookup_insert_eq, Hi.
  - rewrite matches_set_value. exact Hmatch.
  - intros j y Hj Hy. unfold stored in Hy. rewrite list_lookup_insert_ne in Hy by lia.
    exact (Hbefore j y Hj Hy).
Qed.

(** Another kind or name reads what it read before. *)
Lemma get_value_other (ep_type' name' : string) :
  (ep_type', name') <> (ep_type, name) ->
  outcome_of (get_value ep_type' name' base') = outcome_of (get_value ep_type' name' base).
Proof.
  intros Hne.
  rewrite (get_value_run base' stored ep_type' name' store_show_endpoints stored_endpoints).
  rewrite (get_value_run base l ep_type' name' Hshow Hwf).
  assert (Hx : matches ep_type' name' (VDict e) = false).
  { destruct (matches ep_type' name' (VDict e)) eqn:Hm; [|reflexivity].
    destruct (matches_functional ep_type name ep_type' name' (VDict e) Hmatch Hm) as [-> ->].
    destruct (Hne eq_refl). }
  unfold stored. rewrite (find_insert_unmatched _ l i (VDict e)); [| exact Hat | exact Hx |].
  - destruct (List.find (matches ep_type' name') l); reflexivity.
  - rewrite matches_set_value. exact Hx.
Qed.

End StoredValue.

(** ** The basic shutter *)

Section BasicShutter.

Import base_class_write basic_shutter.

Variables (self : FreeboxBasicShutter) (l : list pyval).
Hypothesis Hshow : getitem (_node (basic_base self)) "show_endpoints" = Ok (VList l).
Hypothesis Hwf : Forall (fun x => is_endpoint x = true) l.

(** Reading never raises on a node whose endpoints are well formed. *)
Lemma get_value_total (b : FreeboxHomeBaseClass) (l0 : list pyval) (t n : string) :
  getitem (_node b) "show_endpoints" = Ok (VList l0) ->
  Forall (fun x => is_endpoint x = true) l0 ->
  exists evs s, get_value t n b = (b, evs, Ok s).
Proof.
  intros Hs Hl. rewrite (get_value_run b l0 t n Hs Hl).
  destruct (List.find (matches t n) l0) as [y|] eqn:Hf; [|eauto].
  apply find_some in Hf as [Hin _]. rewrite Forall_forall in Hl.
  apply list_elem_of_In, Hl, is_endpoint_dict in Hin as [d ->].
  cbn. destruct (dict_lookup "value" d); eauto.
Qed.

(** [async_set_value] on an endpoint the node shows. *)
Lemma basic_async_set_value_found (t n : string) (v x : pyval) :
  List.find (matches t n) l = Some x ->
  exists (i : nat) (e : list (string * pyval)) (evs : list event) (s : pyval),
    l !! i = Some (VDict e) /\
    matches t n (VDict e) = true /\
    (forall j y, (j < i)%nat -> l !! j = Some y -> matches t n y = false) /\
    let base' := set_node (store_endpoint_value i v (_node (basic_base self)))
                          (basic_base self) in
    get_value "signal" "state" base' = (base', evs, Ok s) /\
    async_set_value basic_base set_basic_base async_update_node t n v self
    = (set_state (convert_state s) (set_basic_base base' self),
       evs ++ [WriteHaState], Ok tt).
Proof.
  intros Hfind.
  destruct (next_filter_index_first t n l Hwf)
    as [[_ Hnone]|(i & y & Hidx & Hat & Hy & _ & Hbefore)]; [congruence|].
  assert (Hyd : exists e, y = VDict e).
  { rewrite Forall_forall in Hwf. apply is_endpoint_dict, Hwf, list_elem_of_lookup. eauto. }
  destruct Hyd as [e ->].
  exists i, e.
  destruct (get_value_total
              (set_node (store_endpoint_value i v (_node (basic_base self))) (basic_base self))
              (<[i := VDict (dict_set "value" v e)]> l) "signal" "state"
              (store_show_endpoints (basic_base self) l i e v Hshow Hat)
              (stored_endpoints l i e v Hwf Hat)) as (evs & s & Hget).
  exists evs, s. split; [exact Hat|]. split; [exact Hy|]. split; [exact Hbefore|].
  cbv zeta. split; [exact Hget|].
  unfold async_set_value, bind, get_self, lift, modify, emit, async_update_node,
    basic_shutter.inherited, zoom. cbn beta.
  rewrite Hshow. cbn [py_iter]. rewrite Hidx.
  unfold bind, modify. cbn beta. cbn [basic_base set_basic_base]. rewrite Hget.
  destruct self; cbn. rewrite app_nil_r. reflexivity.
Qed.

End BasicShutter.

Section BasicShutterProperties.

Import base_class_write basic_shutter.

(** X10. A value written by [async_set_value] to an endpoint the node shows is
    the value [get_value] then reads for that kind and name; every other
    kind or name reads as before; the shutter's state is recomputed from the
    state signal, and the new state is written. *)
Theorem async_set_value_round_trip (self : FreeboxBasicShutter) (l : list pyval)
    (ep_type name : string) (value x : pyval) :
  getitem (_node (basic_base self)) "show_endpoints" = Ok (VList l) ->
  Forall (fun x => is_endpoint x = true) l ->
  List.find (matches ep_type name) l = Some x ->
  exists self1 evs,
    async_set_value basic_base set_basic_base async_update_node ep_type name value self
    = (self1, evs, Ok tt) /\
    get_value ep_type name (basic_base self1) = (basic_base self1, [], Ok value) /\
    (forall ep_type' name',
       (ep_type', name') <> (ep_type, name) ->
       outcome_of (get_value ep_type' name' (basic_base self1))
       = outcome_of (get_value ep_type' name' (basic_base self))) /\
    (exists s,
       outcome_of (get_value "signal" "state" (basic_base self1)) = Ok s /\
       _state self1 = convert_state s) /\
    In WriteHaState evs.
Proof.
  intros Hshow Hwf Hfind.
  destruct (basic_async_set_value_found self l Hshow Hwf ep_type name value x Hfind)
    as (i & e & evs & s & Hat & Hm & Hbefore & Hget & Hrun).
  cbv zeta in Hget, Hrun. eexists _, _. split; [exact Hrun|].
  cbn [basic_base set_state set_basic_base _state].
  split; [exact (get_value_stored (basic_base self) l ep_type name i e value
                   Hshow Hwf Hat Hm Hbefore)|].
  split; [intros t' n' Hne;
          exact (get_value_other (basic_base self) l ep_type name i e value
                   Hshow Hwf Hat Hm t' n' Hne)|].
  split; [exists s; rewrite Hget; split; reflexivity|].
  apply in_or_app. right. left. reflexivity.
Qed.

Lemma async_set_value_round_trip_witness :
  getitem (_node (basic_base sample_covers.basic)) "show_endpoints"
  = Ok (VList [ sample.endpoint 1 "slot" "up" [];
                sample.endpoint 2 "slot" "stop" [];
                sample.endpoint 3 "slot" "down" [];
                sample.endpoint 4 "signal" "state" [("value", VNone)];
                sample.endpoint 5 "signal" "battery" [("value", VInt 80)] ]) /\
  exists self1 evs,
    async_set_value basic_base set_basic_base async_update_node
      "signal" "battery" (VInt 15) sample_covers.basic = (self1, evs, Ok tt) /\
    outcome_of (get_value "signal" "battery" (basic_base self1)) = Ok (VInt 15) /\
    outcome_of (get_value "signal" "state" (basic_base self1)) = Ok VNone.
Proof.
  split; [reflexivity|].
  destruct (async_set_value_round_trip sample_covers.basic _ "signal" "battery" (VInt 15)
              (sample.endpoint 5 "signal" "battery" [("value", VInt 80)])
              eq_refl ltac:(repeat constructor) eq_refl)
    as (self1 & evs & Hrun & Hback & Hother & _).
  exists self1, evs. split; [exact Hrun|]. split; [rewrite Hback; reflexivity|].
  rewrite (Hother "signal" "state") by discriminate. reflexivity.
Defined.

(** X11. When no endpoint of the node carries the kind and name,
    [async_set_value] only logs a warning: nothing is stored, the subclass
    is not updated and no state is written. *)
Theorem async_set_value_absent (self : FreeboxBasicShutter) (l : list pyval)
    (ep_type name : string) (value : pyval) :
  getitem (_node (basic_base self)) "show_endpoints" = Ok (VList l) ->
  Forall (fun x => is_endpoint x = true) l ->
  (forall x, In x l -> matches ep_type name x = false) ->
  async_set_value basic_base set_basic_base async_update_node ep_type name value self
  = (self, [Log WARNING (NoNodeFor ep_type name)], Ok tt).
Proof.
  intros Hshow Hwf Hno.
  destruct (next_filter_index_first ep_type name l Hwf)
    as [[Hidx _]|(i & y & _ & Hat & Hy & _)].
  - unfold async_set_value, bind, get_self, lift, log, emit. cbn beta.
    rewrite Hshow. cbn [py_iter]. rewrite Hidx. reflexivity.
  - rewrite (Hno y) in Hy; [discriminate|].
    apply list_elem_of_In, list_elem_of_lookup. eauto.
Qed.

Lemma async_set_value_absent_witness :
  getitem (_node (basic_base sample_covers.basic)) "show_endpoints"
  = Ok (VList [ sample.endpoint 1 "slot" "up" [];
                sample.endpoint 2 "slot" "stop" [];
                sample.endpoint 3 "slot" "down" [];
                sample.endpoint 4 "signal" "state" [("value", VNone)];
                sample.endpoint 5 "signal" "battery" [("value", VInt 80)] ]) /\
  state_of (async_set_value basic_base set_basic_base async_update_node
              "signal" "cover" (VBool true) sample_covers.basic)
  = sample_covers.basic.
Proof.
  split; [reflexivity|].
  rewrite (async_set_value_absent sample_covers.basic _ "signal" "cover" (VBool true)
             eq_refl ltac:(repeat constructor)); [reflexivity|].
  intros x Hin. repeat (destruct Hin as [<-|Hin]; [reflexivity|]). destruct Hin.
Defined.

End BasicShutterProperties.

Section BasicShutterCommands.

Import base_class_write basic_shutter.

(** A command of the basic shutter: the set request, then the state
    signal stored as [v]. *)
Lemma basic_command_run (api : Freepybox) (self : FreeboxBasicShutter) (l : list pyval)
    (command_id v x : pyval) :
  getitem (_node (basic_base self)) "show_endpoints" = Ok (VList l) ->
  Forall (fun x => is_endpoint x = true) l ->
  List.find (matches "signal" "state") l = Some x ->
  exists self1 evs r,
    (let* _ := basic_shutter.inherited
                 (set_home_endpoint_value api command_id (VDict [("value", VNone)])) in
     async_set_value basic_base set_basic_base async_update_node "signal" "state" v) self
    = (self1, evs, r) /\
    (r = Ok tt ->
       _state self1 = convert_state v /\
       outcome_of (get_value "signal" "state" (basic_base self1)) = Ok v) /\
    (forall e, r = Raise e ->
       self1 = self /\
       home_set_home_endpoint_value api (_id (basic_base self)) command_id
         (VDict [("value", VNone)]) = Raise e) /\
    (command_id = VALUE_NOT_SET -> r = Ok tt /\ calls evs = []) /\
    (forall ack,
       home_set_home_endpoint_value api (_id (basic_base self)) command_id
         (VDict [("value", VNone)]) = Ok ack -> r = Ok tt).
Proof.
  intros Hshow Hwf Hfind.
  destruct (basic_async_set_value_found self l Hshow Hwf "signal" "state" v x Hfind)
    as (i & e & evs & s & Hat & Hm & Hbefore & Hget & Hrun).
  cbv zeta in Hget, Hrun.
  rewrite (get_value_stored (basic_base self) l "signal" "state" i e v
             Hshow Hwf Hat Hm Hbefore) in Hget.
  injection Hget as <- <-.
  unfold bind at 1, basic_shutter.inherited, zoom.
  rewrite set_home_endpoint_value_cases.
  assert (Heta : set_basic_base (basic_base self) self = self) by (destruct self; reflexivity).
  assert (Hread : outcome_of
                    (get_value "signal" "state"
                       (set_node (store_endpoint_value i v (_node (basic_base self)))
                          (basic_base self))) = Ok v).
  { rewrite (get_value_stored (basic_base self) l "signal" "state" i e v
               Hshow Hwf Hat Hm Hbefore). reflexivity. }
  destruct (is_none command_id) eqn:Hn.
  - rewrite Heta, Hrun. eexists _, _, _. split; [reflexivity|].
    split; [intros _; split; [reflexivity|exact Hread]|].
    split; [intros e0 He0; discriminate He0|].
    split; [intros _; split; reflexivity|intros; reflexivity].
  - destruct (home_set_home_endpoint_value api (_id (basic_base self)) command_id
                (VDict [("value", VNone)])) as [ack|e0].
    + rewrite Heta, Hrun. eexists _, _, _. split; [reflexivity|].
      split; [intros _; split; [reflexivity|exact Hread]|].
      split; [intros e0 He0; discriminate He0|].
      split; [intros ->; discriminate Hn|intros; reflexivity].
    + rewrite Heta. eexists _, _, _. split; [reflexivity|].
      split; [intros H; discriminate H|].
      split; [intros e1 [= <-]; split; reflexivity|].
      split; [intros ->; discriminate Hn|intros ack Hack; discriminate Hack].
Qed.

(** X12. On a basic shutter whose node shows a state signal, a command that
    returns leaves [is_closed] at [True] for close, [False] for open and
    [None] for stop.  A
    command raises only when the set request does, and then the shutter is
    unchanged.  A shutter whose command did not resolve changes its state
    all the same, without sending anything. *)
Theorem basic_shutter_commands (api : Freepybox) (self : FreeboxBasicShutter)
    (l : list pyval) (x : pyval) :
  getitem (_node (basic_base self)) "show_endpoints" = Ok (VList l) ->
  Forall (fun x => is_endpoint x = true) l ->
  List.find (matches "signal" "state") l = Some x ->
  let sends := fun command_id =>
    home_set_home_endpoint_value api (_id (basic_base self)) command_id
      (VDict [("value", VNone)]) in
  let behaves := fun (run : FreeboxBasicShutter * list event * result unit)
                     (command_id shown : pyval) =>
    (outcome_of run = Ok tt -> is_closed (state_of run) = shown) /\
    (forall e, outcome_of run = Raise e -> state_of run = self /\ sends command_id = Raise e) /\
    (command_id = VALUE_NOT_SET -> outcome_of run = Ok tt /\ calls (events_of run) = []) /\
    (forall ack, sends command_id = Ok ack -> outcome_of run = Ok tt) in
  behaves (async_close_cover api self) (_command_down self) (VBool true) /\
  behaves (async_open_cover api self) (_command_up self) (VBool false) /\
  behaves (async_stop_cover api self) (_command_stop self) VNone.
Proof.
  intros Hshow Hwf Hfind sends behaves.
  assert (Hone : forall command_id v shown,
            (if py_eq_str (convert_state v) "open" then VBool false
             else if py_eq_str (convert_state v) "closed" then VBool true else VNone) = shown ->
            behaves
              ((let* self0 := get_self in
                let* _ := basic_shutter.inherited
                            (set_home_endpoint_value api command_id
                               (VDict [("value", VNone)])) in
                async_set_value basic_base set_basic_base async_update_node
                  "signal" "state" v) self)
              command_id shown).
  { intros command_id v shown Hshown.
    destruct (basic_command_run api self l command_id v x Hshow Hwf Hfind)
      as (self1 & evs & r & Hrun & Hok & Hraise & Hunset & Hack).
    unfold bind at 1, get_self at 1. rewrite Hrun. unfold behaves. cbn.
    split; [intros Hr; unfold is_closed; destruct (Hok Hr) as [-> _]; exact Hshown|].
    split; [exact Hraise|]. split; [exact Hunset|exact Hack]. }
  split; [|split].
  - apply (Hone (_command_down self) (VBool true)). reflexivity.
  - apply (Hone (_command_up self) (VBool false)). reflexivity.
  - apply (Hone (_command_stop self) VNone). reflexivity.
Qed.

Lemma basic_shutter_commands_witness :
  let api := sample.up [] VNone in
  getitem (_node (basic_base sample_covers.basic)) "show_endpoints"
  = Ok (VList [ sample.endpoint 1 "slot" "up" [];
                sample.endpoint 2 "slot" "stop" [];
                sample.endpoint 3 "slot" "down" [];
                sample.endpoint 4 "signal" "state" [("value", VNone)];
                sample.endpoint 5 "signal" "battery" [("value", VInt 80)] ]) /\
  is_closed (state_of (async_close_cover api sample_covers.basic)) = VBool true /\
  is_closed (state_of (async_open_cover api sample_covers.basic)) = VBool false.
Proof.
  intros api. split; [reflexivity|].
  destruct (basic_shutter_commands api sample_covers.basic _
              (sample.endpoint 4 "signal" "state" [("value", VNone)])
              eq_refl ltac:(repeat constructor) eq_refl)
    as ((Hclose & _) & (Hopen & _) & _).
  split; [apply Hclose|apply Hopen]; reflexivity.
Defined.

End BasicShutterCommands.

(** ** The dispatcher topics *)

Section Topics.

Import topics.

Lemma append_inv_head (a b c : string) : (a ++ b = a ++ c)%string -> b = c.
Proof. apply String.app_inj. Qed.

Lemma append_associative (a b c : string) : ((a ++ b) ++ c = a ++ (b ++ c))%string.
Proof.
  induction a as [|ch a IH]; [reflexivity|].
  change (String ch ((a ++ b) ++ c) = String ch (a ++ (b ++ c)))%string.
  rewrite IH. reflexivity.
Qed.

(** X13. The five topics of one router are pairwise distinct, so a listener of
    one is never woken by another.  Across routers the names can collide:
    the "home device" topics of a host are the "device" topics of the host
    named after it with ["-home"] appended. *)
Theorem signal_names_of_a_router (host : string) (s1 s2 : signal) :
  (signal_name host s1 = signal_name host s2 <-> s1 = s2) /\
  signal_name host signal_home_device_new
  = signal_name (host ++ "-home") signal_device_new /\
  signal_name host signal_home_device_update
  = signal_name (host ++ "-home") signal_device_update.
Proof.
  split; [split; [|intros ->; reflexivity]|].
  - unfold signal_name. intros H. do 3 apply append_inv_head in H.
    destruct s1, s2; first [reflexivity|discriminate H].
  - unfold signal_name. rewrite !append_associative. split; reflexivity.
Qed.

End Topics.

(** ** Stopping the positional shutter *)

Section ShutterStop.

Import shutter_commands.

(** [update_current_position] does not read the position it replaces. *)
Lemma update_current_position_forgets (s : FreeboxShutter) (c : pyval) :
  match update_current_position s, update_current_position (set_current_position c s) with
  | (s1, ev1, r1), (s2, ev2, r2) =>
      ev1 = ev2 /\ r1 = r2 /\
      (r1 = Ok tt -> _current_position s1 = _current_position s2)
  end.
Proof.
  destruct s as [b inv cur].
  unfold update_current_position, bind, cover.inherited, zoom, lift, get_self, log,
    emit, modify, ret. cbn beta.
  cbn [shutter_base set_current_position _invert_position set_shutter_base].
  destruct (get_value_pure "signal" "state" b) as (e1 & r1 & ->).
  destruct r1 as [state|e]; [|cbn; split; [reflexivity|split; [reflexivity|first [discriminate|reflexivity]]]].
  cbn [shutter_base set_current_position _invert_position set_shutter_base].
  destruct (get_value_pure "signal" "position_set" b) as (e2 & r2 & ->).
  destruct r2 as [position_set|e]; [|cbn; split; [reflexivity|split; [reflexivity|discriminate]]].
  destruct (base64.b64decode state) as [raw|e];
    [|cbn; split; [reflexivity|split; [reflexivity|discriminate]]].
  cbn [shutter_base set_current_position _invert_position set_shutter_base].
  destruct (negb (Nat.eqb (String.length (base64.hex raw)) 118)).
  - destruct (basic_position inv position_set); cbn;
      (split; [reflexivity|split; [reflexivity|first [discriminate|reflexivity]]]).
  - destruct (String.eqb (String.substring 100 2 (base64.hex raw)) "00"); [cbn; split; [reflexivity|split; [reflexivity|first [discriminate|reflexivity]]]|].
    destruct (String.eqb (String.substring 100 2 (base64.hex raw)) "c8"); [cbn; split; [reflexivity|split; [reflexivity|first [discriminate|reflexivity]]]|].
    destruct (py_gt position_set 0) as [[|]|];
      [| |cbn; split; [reflexivity|split; [reflexivity|discriminate]]].
    + destruct (py_lt position_set 100) as [[|]|];
        [| |cbn; split; [reflexivity|split; [reflexivity|discriminate]]].
      * destruct (basic_position inv position_set); cbn;
          (split; [reflexivity|split; [reflexivity|first [discriminate|reflexivity]]]).
      * cbn; split; [reflexivity|split; [reflexivity|first [discriminate|reflexivity]]].
    + cbn; split; [reflexivity|split; [reflexivity|first [discriminate|reflexivity]]].
Qed.

(** X14. Stopping re-decodes the position from the node the entity holds: when
    the command returns, the position shown is the decoder's result on that
    node, whatever position was shown before (the one set by a preceding
    [async_set_cover_position] included). *)
Theorem stop_cover_redecodes (api : Freepybox) (self : FreeboxShutterEntity) (c : pyval) :
  let shown := set_shutter (set_current_position c (shutter self)) self in
  exists self1 evs r,
    async_stop_cover api shown = (self1, evs, r) /\
    (r = Ok tt ->
       outcome_of (update_current_position (shutter self)) = Ok tt /\
       _current_position (shutter self1)
       = _current_position (state_of (update_current_position (shutter self)))) /\
    (forall e, r = Raise e ->
       home_set_home_endpoint_value api (_id (shutter_base (shutter self)))
         (_command_stop self) (VDict [("value", VNone)]) = Raise e \/
       outcome_of (update_current_position (shutter self)) = Raise e).
Proof.
  cbv zeta. unfold async_stop_cover.
  unfold bind, get_self, inherited, on_shutter, cover.inherited, zoom, emit. cbn beta.
  rewrite set_home_endpoint_value_cases.
  pose proof (update_current_position_forgets (shutter self) c) as Hf.
  destruct self as [[b inv cur] cset cstop].
  unfold set_current_position, set_shutter, set_shutter_base in *.
  cbn [shutter _command_stop _command_set_position shutter_base _invert_position
       _current_position] in *.
  destruct (update_current_position
              {| shutter_base := b; _invert_position := inv; _current_position := cur |})
    as [[s1 ev1] r1].
  destruct (update_current_position
              {| shutter_base := b; _invert_position := inv; _current_position := c |})
    as [[s2 ev2] r2] eqn:Hrun.
  destruct Hf as (-> & -> & Hpos).
  cbn [outcome_of state_of].
  destruct (is_none cstop);
    [|destruct (home_set_home_endpoint_value api (_id b) cstop (VDict [("value", VNone)]))
        as [ack|e0]];
    cbn [shutter _command_stop _command_set_position]; try rewrite Hrun;
    try (destruct r2 as [[]|e]); eexists _, _, _; (split; [reflexivity|]).
  all: split; [first [intros H; discriminate H
                     |intros _; split; [reflexivity|symmetry; apply Hpos; reflexivity]]|].
  all: intros e' He; first [discriminate He|injection He as <-].
  all: first [left; reflexivity|right; reflexivity].
Qed.

End ShutterStop.
